(** * build_model.py: a content-based similarity model for a movie catalogue

    A shallow embedding of [src/build_model.py] and the properties of its
    field decoders, tag builder, similarity matrix and persistence step.

    Conventions of the embedding.
    - Python values are the inductive [pyval]; the values a table column read
      from a CSV file can hold are the scalars [scalar].
    - A Python [str] is a [string]; [str.lower] is modelled on the ASCII
      range (A-Z to a-z, every other character fixed).
    - An exception is a value [Raise e] of [result]; [except Exception]
      catches every [exn].
    - Calls into [ast], [pandas] and [sklearn.feature_extraction] are
      section variables.  [sklearn.metrics.pairwise.cosine_similarity] has
      two models: [Binary64], in the arithmetic of the code, and
      [Similarity], over the real numbers, which the script carries and on
      which the shape and the symmetry of the matrix are stated. *)

From Stdlib Require Import ZArith List String Ascii Bool Lia.
From Stdlib Require Import SpecFloat DecimalString.
From Stdlib Require Import Reals Lra.
From Stdlib Require Uint63 PrimFloat FloatOps.
From stdpp Require Import base option list gmap strings.

Import ListNotations.
Local Open Scope Z_scope.
Local Open Scope string_scope.
Local Open Scope list_scope.

(** ** Exceptions *)

Inductive exn : Type :=
| SyntaxError
| ValueError
| TypeError
| AttributeError
| KeyError
| MemoryError
| RecursionError
| FileExistsError
| IsADirectoryError
| FileNotFoundError.

Inductive result (A : Type) : Type :=
| Ok (a : A)
| Raise (e : exn).
Arguments Ok {A} a.
Arguments Raise {A} e.

#[global] Instance result_ret : MRet result := fun A a => Ok a.

#[global] Instance result_bind : MBind result := fun A B k c =>
  match c with
  | Ok a => k a
  | Raise e => Raise e
  end.

#[global] Instance result_fmap : FMap result := fun A B f c =>
  match c with
  | Ok a => Ok (f a)
  | Raise e => Raise e
  end.

(** [try: c  except Exception: h] *)
Definition try_except {A} (c : result A) (h : result A) : result A :=
  match c with
  | Ok a => Ok a
  | Raise _ => h
  end.

(** A [for] loop whose body can raise: the accumulator is threaded from
    left to right and the first exception leaves the loop. *)
Fixpoint foldM {A B} (f : A -> B -> result A) (l : list B) (a : A) : result A :=
  match l with
  | [] => Ok a
  | b :: l' => a' ← f a b; foldM f l' a'
  end.

Definition is_ok {A} (r : result A) : bool :=
  match r with Ok _ => true | Raise _ => false end.

(** ** Python values *)

(** What a cell of a table read by [pandas.read_csv] (or filled in by a left
    merge) holds. *)
Inductive scalar : Type :=
| SNone
| SBool (b : bool)
| SInt (z : Z)
| SFloat (f : spec_float)
| SStr (s : string).

#[local] Set Warnings "-register-all".

(** What [ast.literal_eval] can return, and what a table cell can hold once
    the pipeline has stored lists in it.  [VDict] and [VSet] list the items
    of the object in its iteration order. *)
Inductive pyval : Type :=
| VScalar (c : scalar)
| VBytes (b : string)
| VComplex (re im : spec_float)
| VEllipsis
| VList (l : list pyval)
| VTuple (l : list pyval)
| VSet (l : list pyval)
| VDict (d : list (pyval * pyval)).

Coercion VScalar : scalar >-> pyval.

Abbreviation VNone := (VScalar SNone).
Abbreviation VStr s := (VScalar (SStr s)).
Abbreviation NaN := (SFloat S754_nan).

Definition float_is_zero (f : spec_float) : bool :=
  match f with S754_zero _ => true | _ => false end.

Definition is_nil {A} (l : list A) : bool :=
  match l with [] => true | _ => false end.

Definition str_is_empty (s : string) : bool :=
  match s with EmptyString => true | _ => false end.

(** [bool(x)] *)
Definition scalar_truthy (c : scalar) : bool :=
  match c with
  | SNone => false
  | SBool b => b
  | SInt z => negb (z =? 0)%Z
  | SFloat f => negb (float_is_zero f)
  | SStr s => negb (str_is_empty s)
  end.

Definition truthy (v : pyval) : bool :=
  match v with
  | VScalar c => scalar_truthy c
  | VBytes b => negb (str_is_empty b)
  | VComplex re im => negb (float_is_zero re && float_is_zero im)
  | VEllipsis => true
  | VList l | VTuple l | VSet l => negb (is_nil l)
  | VDict d => negb (is_nil d)
  end.

(** [a or b] *)
Definition py_or (a b : pyval) : pyval := if truthy a then a else b.

(** [pandas.isna] on a scalar *)
Definition pd_isna (x : scalar) : bool :=
  match x with
  | SNone => true
  | SFloat S754_nan => true
  | _ => false
  end.

(** ** Strings *)

Definition dquote : ascii := ascii_of_nat 34.
Definition space : ascii := ascii_of_nat 32.

(** [s.replace('<dquote><dquote>', '<dquote>')]: left to right, without
    overlap. *)
Fixpoint collapse_doubled_quotes (s : string) : string :=
  match s with
  | EmptyString => EmptyString
  | String a t =>
      match t with
      | String b t' =>
          if Ascii.eqb a dquote && Ascii.eqb b dquote
          then String dquote (collapse_doubled_quotes t')
          else String a (collapse_doubled_quotes t)
      | EmptyString => String a EmptyString
      end
  end.

(** [s.replace(' ', '')] *)
Fixpoint remove_spaces (s : string) : string :=
  match s with
  | EmptyString => EmptyString
  | String a t =>
      if Ascii.eqb a space then remove_spaces t else String a (remove_spaces t)
  end.

Definition is_upper (a : ascii) : bool :=
  let n := nat_of_ascii a in (Nat.leb 65 n && Nat.leb n 90)%bool.

Definition lower_ascii (a : ascii) : ascii :=
  if is_upper a then ascii_of_nat (nat_of_ascii a + 32) else a.

(** [s.lower()] on ASCII text: A-Z go to a-z and every other character
    stays.  A character outside ASCII is not modelled: of a name that holds
    one, the statements below say only what holds of [str.lower] as well (it
    adds no space and leaves no letter A-Z). *)
Fixpoint str_lower (s : string) : string :=
  match s with
  | EmptyString => EmptyString
  | String a t => String (lower_ascii a) (str_lower t)
  end.

(** [' '.join(l)] *)
Definition join_space (l : list string) : string := String.concat " " l.

(** ** Built-in conversions *)

Definition dict_key_is (k : string) (key : pyval) : bool :=
  match key with
  | VStr s => String.eqb k s
  | _ => false
  end.

Definition dict_lookup (k : string) (d : list (pyval * pyval)) : option pyval :=
  snd <$> List.find (fun kv => dict_key_is k (fst kv)) d.

(** [d.get(k)]: the value bound to the string key [k], [None] without one. *)
Definition dict_get (k : string) (d : list (pyval * pyval)) : pyval :=
  default VNone (dict_lookup k d).

(** [iter(v)], as a list comprehension or a [for] loop consumes it. *)
Definition py_iter (v : pyval) : result (list pyval) :=
  match v with
  | VList l | VTuple l | VSet l => Ok l
  | VDict d => Ok (map fst d)
  | VStr s => Ok (map (fun a => VStr (String a EmptyString)) (list_ascii_of_string s))
  | VBytes b => Ok (map (fun a => VScalar (SInt (Z.of_nat (nat_of_ascii a)))) (list_ascii_of_string b))
  | _ => Raise TypeError
  end.

(** [v.lower()]: only [str] and [bytes] have the method. *)
Definition py_lower (v : pyval) : result pyval :=
  match v with
  | VStr s => Ok (VStr (str_lower s))
  | VBytes b => Ok (VBytes (str_lower b))
  | _ => Raise AttributeError
  end.

(** The limit of CPython (3.11 and later, and the security releases of 3.7
    to 3.10) on the conversion of an [int] to decimal text:
    [sys.get_int_max_str_digits()] is 4300 unless it is configured. *)
Definition int_max_str_digits : Z := 4300.

(** [str(v)] and [repr(v)] raise [ValueError] when [v] is an [int] of more
    than [int_max_str_digits] decimal digits, or a container that holds
    one: the text of a container is made of the [repr] of its elements. *)
Fixpoint exceeds_int_digits (v : pyval) : bool :=
  match v with
  | VScalar (SInt z) => (10 ^ int_max_str_digits <=? Z.abs z)%Z
  | VList l | VTuple l | VSet l => existsb exceeds_int_digits l
  | VDict d =>
      existsb (fun kv => match kv with
                         | (k, x) => exceeds_int_digits k || exceeds_int_digits x
                         end) d
  | _ => false
  end.

(** [v == s] for a [str] constant [s] *)
Definition py_eq_str (v : pyval) (s : string) : bool :=
  match v with
  | VStr t => String.eqb t s
  | _ => false
  end.

(** ** The similarity engine

    [sklearn.metrics.pairwise.cosine_similarity(vectors)] normalises every
    row of the count matrix to unit Euclidean length, leaving a row of zero
    norm as it is, and returns the matrix of dot products of the normalised
    rows.  The arithmetic is that of the real numbers: the rounding of
    binary64 is not part of this model, and what depends on it is stated on
    [Binary64] below. *)

Module Similarity.

Fixpoint dot (u v : list R) : R :=
  match u, v with
  | x :: u', y :: v' => (x * y + dot u' v')%R
  | _, _ => 0%R
  end.

Definition row_norm (u : list R) : R := sqrt (dot u u).

Definition normalize_row (u : list R) : list R :=
  let n := row_norm u in
  if Req_dec_T n 0 then u else map (fun x => (x / n)%R) u.

Definition normalize (X : list (list R)) : list (list R) := map normalize_row X.

(** [A @ A.T] *)
Definition gram (A : list (list R)) : list (list R) :=
  map (fun a => map (fun b => dot a b) A) A.

Definition cosine_similarity (vectors : list (list nat)) : list (list R) :=
  gram (normalize (map (map INR) vectors)).

(** [sim[i][j]] *)
Definition entry (sim : list (list R)) (i j : nat) : option R :=
  r ← sim !! i; r !! j.


End Similarity.

(** ** The similarity engine, as computed

    The same call in the arithmetic of the code.  [vectors] is a CSR matrix
    of counts: a row stores its non-zero counts, by increasing column.
    [cosine_similarity] converts the counts to binary64 and refuses a matrix
    without rows or without columns ([check_pairwise_arrays]); it divides the
    stored entries of every row by the square root of the sum of their
    squares, a row whose sum is zero being skipped
    ([inplace_csr_row_normalize_l2]); and the entry [i], [j] of the product
    with the transpose is the sum, started at zero and taken by increasing
    column, of the products of the entries both rows store. *)

Module Binary64.

Definition float : Set := PrimFloat.float.

(** The binary64 number of a count, for counts below 2^63, as the int64
    cells of the count matrix hold them. *)
Definition of_count (c : nat) : float :=
  PrimFloat.of_uint63 (Uint63.of_Z (Z.of_nat c)).

Definition zero : float := of_count 0.
Definition one : float := of_count 1.

(** The stored entries of a row of counts: [None] at a column that holds 0. *)
Definition stored (row : list nat) : list (option float) :=
  map (fun c => match c with
                | O => None
                | S _ => Some (of_count c)
                end) row.

Definition sum_squares (r : list (option float)) : float :=
  fold_left (fun s x => match x with
                        | Some v => PrimFloat.add s (PrimFloat.mul v v)
                        | None => s
                        end) r zero.

Definition normalize_row (r : list (option float)) : list (option float) :=
  let s := sum_squares r in
  if PrimFloat.eqb s zero then r
  else map (option_map (fun v => PrimFloat.div v (PrimFloat.sqrt s))) r.

Definition dot (a b : list (option float)) : float :=
  fold_left (fun s xy => match xy with
                         | (Some u, Some v) => PrimFloat.add s (PrimFloat.mul u v)
                         | _ => s
                         end) (combine a b) zero.

Definition n_features (vectors : list (list nat)) : nat :=
  match vectors with
  | [] => 0
  | row :: _ => length row
  end.

Definition cosine_similarity (vectors : list (list nat))
  : result (list (list float)) :=
  if is_nil vectors || Nat.eqb (n_features vectors) 0 then Raise ValueError
  else
    let normalized := map (fun row => normalize_row (stored row)) vectors in
    Ok (map (fun a => map (fun b => dot a b) normalized) normalized).

(** [similarity[i][j]] for the matrix the call returns *)
Definition entry (vectors : list (list nat)) (i j : nat) : option float :=
  match cosine_similarity vectors with
  | Ok sim => r ← sim !! i; r !! j
  | Raise _ => None
  end.

End Binary64.

(** ** Tables, files and the console *)

(** A [pandas.DataFrame]: the column labels and the rows in positional
    order, each row a map from label to value. *)
Record DataFrame : Type := {
  columns : list string;
  rows : list (gmap string pyval)
}.

(** [row.get(k)] on a row of the table *)
Definition row_get (row : gmap string pyval) (k : string) : pyval :=
  default VNone (row !! k).

(** [df[c]] *)
Definition getcol (df : DataFrame) (c : string) : result (list pyval) :=
  if decide (c ∈ columns df)
  then Ok (map (fun r => row_get r c) (rows df))
  else Raise KeyError.

(** [df[c] = values], for a series of the length of the table *)
Definition setcol (df : DataFrame) (c : string) (values : list pyval) : DataFrame :=
  {| columns := if decide (c ∈ columns df) then columns df else columns df ++ [c];
     rows := zip_with (fun r v => <[c:=v]> r) (rows df) values |}.

Fixpoint mapM {A B} (f : A -> result B) (l : list A) : result (list B) :=
  match l with
  | [] => Ok []
  | a :: l' => b ← f a; bs ← mapM f l'; Ok (b :: bs)
  end.

(** [series.apply(f)] for a function of the scalar a cell holds.  The
    columns the pipeline applies a decoder to come from [read_csv] and from
    the left merge, which store scalars; a column holding anything else is
    outside the pipeline and is given no result here. *)
Definition series_apply {B} (f : scalar -> result B) (series : list pyval)
  : result (list B) :=
  mapM (fun v => match v with VScalar c => f c | _ => Raise TypeError end) series.

Inductive content : Type :=
| Bytes (s : string)
| PickledFrame (df : DataFrame)
| PickledMatrix (m : list (list R)).

Inductive node : Type :=
| Directory
| File (c : content).

Record world : Type := {
  fs : gmap string node;
  stdout : list string
}.

(** A statement of the script: it returns or raises, and leaves a world. *)
Definition io (A : Type) : Type := world -> result A * world.

#[global] Instance io_ret : MRet io := fun A a w => (Ok a, w).

#[global] Instance io_bind : MBind io := fun A B k c w =>
  match c w with
  | (Ok a, w') => k a w'
  | (Raise e, w') => (Raise e, w')
  end.

Definition lift {A} (r : result A) : io A := fun w => (r, w).

(** [os.path.exists(p)] *)
Definition path_exists (p : string) (w : world) : bool :=
  bool_decide (is_Some (fs w !! p)).

(** [print(line)] *)
Definition print (line : string) : io unit := fun w =>
  (Ok tt, {| fs := fs w; stdout := stdout w ++ [line] |}).

(** [os.makedirs(p, exist_ok=True)] for a path of one component *)
Definition makedirs (p : string) : io unit := fun w =>
  match fs w !! p with
  | Some Directory => (Ok tt, w)
  | Some (File _) => (Raise FileExistsError, w)
  | None => (Ok tt, {| fs := <[p:=Directory]> (fs w); stdout := stdout w |})
  end.

(** [with open(p, 'wb') as f: pickle.dump(obj, f)] *)
Definition pickle_dump (obj : content) (p : string) : io unit := fun w =>
  match fs w !! p with
  | Some Directory => (Raise IsADirectoryError, w)
  | _ => (Ok tt, {| fs := <[p:=File obj]> (fs w); stdout := stdout w |})
  end.

(** ** Sample data

    A decoder for a handful of source strings, to run the definitions on
    concrete cells. *)

Module Sample.

Definition two_dq : string := String dquote (String dquote EmptyString).

Definition cast_source : string :=
  "[{'name': 'Tom Hanks'}, {'name': 'Tim Allen'}, {'name': 'Don Rickles'}, {'name': 'Jim Varney'}]".

Definition cast_value : pyval :=
  VList [ VDict [(VStr "name", VStr "Tom Hanks")];
          VDict [(VStr "name", VStr "Tim Allen")];
          VDict [(VStr "name", VStr "Don Rickles")];
          VDict [(VStr "name", VStr "Jim Varney")] ].

Definition crew_source : string :=
  "[{'job': 'Director', 'name': 'John Lasseter'}, {'job': 'Editor', 'name': 'Lee Unkrich'}, {'job': 'DIRECTOR'}, {'name': 'Nobody'}]".

Definition crew_value : pyval :=
  VList [ VDict [(VStr "job", VStr "Director"); (VStr "name", VStr "John Lasseter")];
          VDict [(VStr "job", VStr "Editor"); (VStr "name", VStr "Lee Unkrich")];
          VDict [(VStr "job", VStr "DIRECTOR")];
          VDict [(VStr "name", VStr "Nobody")] ].

(** A genre field whose quotes were doubled by the CSV writer: it does not
    parse as it is, and parses once the doubled quotes are collapsed. *)
Definition genres_doubled : string :=
  "[{" +:+ two_dq +:+ "name" +:+ two_dq +:+ ": " +:+ two_dq +:+ "Action" +:+ two_dq +:+ "}]".

Definition genres_collapsed : string :=
  "[{" +:+ String dquote "name" +:+ String dquote ": " +:+ String dquote "Action" +:+ String dquote "}]".

Definition genres_value : pyval := VList [ VDict [(VStr "name", VStr "Action")] ].

Definition genres_source : string := "[{'id': 16, 'name': 'Animation'}]".

Definition genres_source_value : pyval :=
  VList [ VDict [(VStr "id", VScalar (SInt 16)); (VStr "name", VStr "Animation")] ].

Definition keywords_source : string :=
  "[{'id': 931, 'name': 'jealousy'}, {'id': 4290, 'name': 'toy'}]".

Definition keywords_source_value : pyval :=
  VList [ VDict [(VStr "id", VScalar (SInt 931)); (VStr "name", VStr "jealousy")];
          VDict [(VStr "id", VScalar (SInt 4290)); (VStr "name", VStr "toy")] ].

Definition literal_eval (s : string) : result pyval :=
  if String.eqb s cast_source then Ok cast_value
  else if String.eqb s crew_source then Ok crew_value
  else if String.eqb s genres_collapsed then Ok genres_value
  else if String.eqb s genres_source then Ok genres_source_value
  else if String.eqb s keywords_source then Ok keywords_source_value
  else Raise SyntaxError.

Definition py_repr (v : pyval) : string := "<object>".


(** A row of the merged table for a film without synopsis: [read_csv]
    stores NaN in the empty cell. *)
Definition row_without_overview : gmap string pyval :=
  <["overview" := VScalar NaN]>
    (<["genres_parsed" := VList [VStr "Action"]]>
       (<["keywords_parsed" := VList []]>
          (<["cast_parsed" := VList [VStr "Tom Hanks"]]>
             (<["director_parsed" := VList []]> ∅)))).

(** Two input files: two films, and the credits of the first. *)
Definition nl : string := String (ascii_of_nat 10) EmptyString.
Definition quoted (s : string) : string := String dquote s +:+ String dquote EmptyString.

Definition movies_text : string :=
  "id,title,overview,genres,keywords" +:+ nl +:+
  "862,Toy Story,Toys come to life," +:+ quoted genres_source +:+ ","
    +:+ quoted keywords_source +:+ nl +:+
  "8844,Jumanji,,," +:+ nl.

Definition credits_text : string :=
  "movie_id,title,cast,crew" +:+ nl +:+
  "862,Toy Story," +:+ quoted cast_source +:+ "," +:+ quoted crew_source +:+ nl.

Definition movies_table : DataFrame :=
  {| columns := ["id"; "title"; "overview"; "genres"; "keywords"];
     rows := [ <["id" := VScalar (SInt 862)]>
                 (<["title" := VStr "Toy Story"]>
                    (<["overview" := VStr "Toys come to life"]>
                       (<["genres" := VStr genres_source]>
                          (<["keywords" := VStr keywords_source]> ∅))));
               <["id" := VScalar (SInt 8844)]>
                 (<["title" := VStr "Jumanji"]>
                    (<["overview" := VScalar NaN]>
                       (<["genres" := VScalar NaN]>
                          (<["keywords" := VScalar NaN]> ∅)))) ] |}.

Definition credits_table : DataFrame :=
  {| columns := ["movie_id"; "title"; "cast"; "crew"];
     rows := [ <["movie_id" := VScalar (SInt 862)]>
                 (<["title" := VStr "Toy Story"]>
                    (<["cast" := VStr cast_source]>
                       (<["crew" := VStr crew_source]> ∅))) ] |}.

Definition read_csv (c : content) : result DataFrame :=
  match c with
  | Bytes s =>
      if String.eqb s movies_text then Ok movies_table
      else if String.eqb s credits_text then Ok credits_table
      else Raise ValueError
  | _ => Raise ValueError
  end.

Definition int_cell (r : gmap string pyval) (k : string) : option Z :=
  match r !! k with
  | Some (VScalar (SInt z)) => Some z
  | _ => None
  end.

Definition same_id (m c : gmap string pyval) : bool :=
  match int_cell m "id", int_cell c "movie_id" with
  | Some a, Some b => (a =? b)%Z
  | _, _ => false
  end.

(** The left join of two tables whose integer ids match at most once. *)
Definition merge_credits (movies credits : DataFrame) : result DataFrame :=
  Ok {| columns := columns movies ++ ["cast"; "crew"];
        rows := map (fun m =>
                       match List.find (same_id m) (rows credits) with
                       | Some c => <["crew" := row_get c "crew"]>
                                     (<["cast" := row_get c "cast"]> m)
                       | None => <["crew" := VScalar NaN]>
                                   (<["cast" := VScalar NaN]> m)
                       end) (rows movies) |}.

Fixpoint split_words (s cur : string) : list string :=
  match s with
  | EmptyString => [cur]
  | String a t =>
      if Ascii.eqb a space then cur :: split_words t EmptyString
      else split_words t (cur +:+ String a EmptyString)
  end.

Definition vocabulary : list string :=
  ["animation"; "jealousy"; "johnlasseter"; "tomhanks"; "toy"].

(** The counts of the words of [vocabulary] in every document. *)
Definition fit_transform (docs : list string) : result (list (list nat)) :=
  Ok (map (fun d =>
             map (fun word =>
                    length (List.filter (String.eqb word) (split_words d EmptyString)))
                 vocabulary) docs).

Definition input_files : world :=
  {| fs := <["Movies 500.csv" := File (Bytes movies_text)]>
             (<["Credits 500.csv" := File (Bytes credits_text)]> ∅);
     stdout := [] |}.

Definition no_files : world := {| fs := ∅; stdout := [] |}.

End Sample.

(** ** More sample data *)

Module Fixture.

(** A crew field whose second record has a number for its job. *)
Definition numbered_job_source : string :=
  "[{'job': 'Director', 'name': 'Ann'}, {'job': 1, 'name': 'Bob'}]".

Definition numbered_job_value : pyval :=
  VList [ VDict [(VStr "job", VStr "Director"); (VStr "name", VStr "Ann")];
          VDict [(VStr "job", VScalar (SInt 1)); (VStr "name", VStr "Bob")] ].

Definition literal_eval (s : string) : result pyval :=
  if String.eqb s numbered_job_source then Ok numbered_job_value
  else Sample.literal_eval s.

(** A cast field whose one record has for name a hexadecimal integer of
    3600 digits, beyond the limit of 4300 decimal digits. *)
Definition long_int_source : string :=
  "[{'name': 0x" +:+ string_of_list_ascii (repeat "f"%char 3600) +:+ "}]".

Definition long_int_value : pyval :=
  VList [ VDict [(VStr "name", VScalar (SInt (16 ^ 3600 - 1)))] ].

Definition literal_eval_long (s : string) : result pyval :=
  if String.eqb s long_int_source then Ok long_int_value
  else Sample.literal_eval s.

(** A reader for a movies file without the [id] column. *)
Definition read_csv_without_id (c : content) : result DataFrame :=
  Ok {| columns := ["title"; "genres"; "keywords"]; rows := [] |}.

(** The two input files, and a regular file where the directory should be. *)
Definition model_is_a_file : world :=
  {| fs := <["model" := File (Bytes "notes")]> (fs Sample.input_files);
     stdout := [] |}.

(** The two input files, and a directory where the matrix should be. *)
Definition similarity_is_a_directory : world :=
  {| fs := <["model/similarity.pkl" := Directory]> (fs Sample.input_files);
     stdout := [] |}.


End Fixture.

Section BuildModel.

(** [ast.literal_eval] on a source string: the decoded literal, or the
    exception the parser raises. *)
Variable literal_eval : string -> result pyval.

(** [repr] of the values whose text the pipeline does not fix: finite
    floats, complex numbers, bytes and containers. *)
Variable py_repr : pyval -> string.

(** The text of [str(v)], for a value whose conversion does not raise. *)
Definition py_str (v : pyval) : string :=
  match v with
  | VStr s => s
  | VNone => "None"
  | VScalar (SBool true) => "True"
  | VScalar (SBool false) => "False"
  | VScalar (SInt z) => NilZero.string_of_int (Z.to_int z)
  | VScalar (SFloat S754_nan) => "nan"
  | VScalar (SFloat (S754_infinity false)) => "inf"
  | VScalar (SFloat (S754_infinity true)) => "-inf"
  | VEllipsis => "Ellipsis"
  | _ => py_repr v
  end.

(** [str(v)] on a decoded literal: [ValueError] beyond the digit limit. *)
Definition py_str_checked (v : pyval) : result string :=
  if exceeds_int_digits v then Raise ValueError else Ok (py_str v).

(** [ast.literal_eval(x)] on a table cell: anything but a [str] is a
    malformed node. *)
Definition literal_eval_cell (x : scalar) : result pyval :=
  match x with
  | SStr s => literal_eval s
  | _ => Raise ValueError
  end.

(** [x.replace(dq dq, dq)] on a table cell: only a [str] has the method. *)
Definition replace_cell (x : scalar) : result scalar :=
  match x with
  | SStr s => Ok (SStr (collapse_doubled_quotes s))
  | _ => Raise AttributeError
  end.

(** The two nested [try] blocks shared by [parse_field] and
    [get_crew_director]: [Some data] when one of the two attempts decodes,
    [None] when the inner handler returns the empty list. *)
Definition decode (x : scalar) : option pyval :=
  match literal_eval_cell x with
  | Ok data => Some data
  | Raise _ =>
      match x' ← replace_cell x; literal_eval_cell x' with
      | Ok data => Some data
      | Raise _ => None
      end
  end.

(** One turn of the loop of [parse_field]. *)
Definition parse_field_item (names : list string) (item : pyval)
  : result (list string) :=
  match item with
  | VDict d =>
      let name := py_or (dict_get "name" d) (dict_get "title" d) in
      if truthy name then text ← py_str_checked name; Ok (names ++ [text])
      else Ok names
  | _ => Ok names
  end.

(** Lines 21 to 28, outside the two [try] blocks. *)
Definition parse_field_names (data : pyval) : result (list string) :=
  match data with
  | VList items => foldM parse_field_item items []
  | _ => Ok []
  end.

Definition parse_field (x : scalar) : result (list string) :=
  if pd_isna x then Ok []
  else
    match decode x with
    | None => Ok []
    | Some data => parse_field_names data
    end.

(** [names[:n]] *)
Definition slice_to {A} (n : Z) (l : list A) : list A :=
  if (0 <=? n)%Z then firstn (Z.to_nat n) l
  else firstn (Z.to_nat (Z.of_nat (length l) + n)) l.

Definition get_cast_n (top_n : Z) (x : scalar) : result (list string) :=
  names ← parse_field x;
  Ok (slice_to top_n names).

(** [get_cast(x)], with the default [top_n=3] *)
Definition get_cast (x : scalar) : result (list string) := get_cast_n 3 x.

(** One turn of the loop of [get_crew_director]. *)
Definition get_crew_director_item (directors : list pyval) (item : pyval)
  : result (list pyval) :=
  match item with
  | VDict d =>
      if truthy (dict_get "job" d) then
        job ← py_lower (dict_get "job" d);
        if py_eq_str job "director"
        then Ok (directors ++ [dict_get "name" d])
        else Ok directors
      else Ok directors
  | _ => Ok directors
  end.

Definition get_crew_director (x : scalar) : result (list pyval) :=
  if pd_isna x then Ok []
  else
    match decode x with
    | None => Ok []
    | Some data =>
        match data with
        | VList items => foldM get_crew_director_item items []
        | _ => Ok []
        end
    end.

Definition clean_token (t : string) : string := str_lower (remove_spaces t).

Definition clean_token_list (lst : list pyval) : list string :=
  omap (fun t => match t with VStr s => Some (clean_token s) | _ => None end) lst.

(** [str(p)] is taken on the synopsis, a cell of the table, and on tokens:
    [py_str] gives its text. *)
Definition make_tags (row : gmap string pyval) : result string :=
  let overview := py_or (row_get row "overview") (VStr EmptyString) in
  genres ← clean_token_list <$> py_iter (py_or (row_get row "genres_parsed") (VList []));
  keywords ← clean_token_list <$> py_iter (py_or (row_get row "keywords_parsed") (VList []));
  cast ← clean_token_list <$> py_iter (py_or (row_get row "cast_parsed") (VList []));
  director ← clean_token_list <$> py_iter (py_or (row_get row "director_parsed") (VList []));
  let parts := [overview] ++ map (fun s => VStr s) (genres ++ keywords ++ cast ++ director) in
  Ok (join_space (map py_str (List.filter truthy parts))).



(** [pandas.read_csv] on the bytes of a file: the table, or the exception
    of the parser. *)
Variable read_csv : content -> result DataFrame.

(** [movies.merge(credits.rename(columns={'movie_id': 'id'})[['id', 'cast',
    'crew']], left_on='id', right_on='id', how='left')]: the renaming, the
    projection and the left join of [pandas], from the two tables. *)
Variable merge_credits : DataFrame -> DataFrame -> result DataFrame.

(** [CountVectorizer(max_features=5000, stop_words='english').fit_transform]:
    the count matrix of a corpus, one row per document, or the exception
    raised for a corpus without vocabulary. *)
Variable fit_transform : list string -> result (list (list nat)).

Definition movies_csv : string := "Movies 500.csv".
Definition credits_csv : string := "Credits 500.csv".

Definition dq : string := String dquote EmptyString.

Definition missing_message : string :=
  "Required CSV files not found. Place " +:+ dq +:+ "Movies 500.csv" +:+ dq
  +:+ " and " +:+ dq +:+ "Credits 500.csv" +:+ dq +:+ " here.".

Definition built_message : string :=
  "Built model files: model/movie_list.pkl and model/similarity.pkl".

Definition movie_list_pkl : string := "model/movie_list.pkl".
Definition similarity_pkl : string := "model/similarity.pkl".

(** [pd.read_csv(p)] *)
Definition read_csv_path (p : string) : io DataFrame := fun w =>
  match fs w !! p with
  | Some (File c) => (read_csv c, w)
  | Some Directory => (Raise IsADirectoryError, w)
  | None => (Raise FileNotFoundError, w)
  end.

Definition str_list (names : list string) : pyval := VList (map (fun s => VStr s) names).

Definition main : io unit := fun w =>
  if negb (path_exists movies_csv w && path_exists credits_csv w) then
    print missing_message w
  else
    (movies ← read_csv_path movies_csv;
     credits ← read_csv_path credits_csv;
     ids ← lift (getcol movies "id");
     let movies := setcol movies "movie_id" ids in
     genres ← lift (getcol movies "genres" ≫= series_apply parse_field);
     let movies := setcol movies "genres_parsed" (map str_list genres) in
     keywords ← lift (getcol movies "keywords" ≫= series_apply parse_field);
     let movies := setcol movies "keywords_parsed" (map str_list keywords) in
     merged ← lift (merge_credits movies credits);
     cast ← lift (getcol merged "cast" ≫= series_apply get_cast);
     let merged := setcol merged "cast_parsed" (map str_list cast) in
     director ← lift (getcol merged "crew" ≫= series_apply get_crew_director);
     let merged := setcol merged "director_parsed" (map VList director) in
     tags ← lift (mapM make_tags (rows merged));
     let merged := setcol merged "tags" (map (fun t => VStr t) tags) in
     vectors ← lift (getcol merged "tags" ≫= fun col => fit_transform (map py_str col));
     let similarity := Similarity.cosine_similarity vectors in
     makedirs "model";;
     let out_movies := merged in
     pickle_dump (PickledFrame out_movies) movie_list_pkl;;
     pickle_dump (PickledMatrix similarity) similarity_pkl;;
     print built_message) w.

(** ** Vocabulary of the properties *)

(** The name a record contributes to [parse_field]: its ["name"], else its
    ["title"], when one of them is truthy. *)
Definition record_name (item : pyval) : option string :=
  match item with
  | VDict d =>
      match dict_lookup "name" d with
      | Some v => if truthy v then Some (py_str v)
                  else match dict_lookup "title" d with
                       | Some t => if truthy t then Some (py_str t) else None
                       | None => None
                       end
      | None => match dict_lookup "title" d with
                | Some t => if truthy t then Some (py_str t) else None
                | None => None
                end
      end
  | _ => None
  end.

(** A record whose name [parse_field] cannot turn into text. *)
Definition unprintable_name (item : pyval) : bool :=
  match item with
  | VDict d =>
      let name := py_or (dict_get "name" d) (dict_get "title" d) in
      truthy name && exceeds_int_digits name
  | _ => false
  end.

(** The records of a field: the elements of the decoded list, none when the
    cell is missing, does not decode, or decodes to something else. *)
Definition records (x : scalar) : list pyval :=
  if pd_isna x then []
  else match decode x with
       | Some (VList items) => items
       | _ => []
       end.

(** A record whose ["job"] is a string equal to ["director"] up to case. *)
Definition is_director (item : pyval) : bool :=
  match item with
  | VDict d =>
      match dict_lookup "job" d with
      | Some (VStr job) => String.eqb (str_lower job) "director"
      | _ => false
      end
  | _ => false
  end.

(** What [get_crew_director] appends for a record. *)
Definition director_entry (item : pyval) : pyval :=
  match item with
  | VDict d => dict_get "name" d
  | _ => VNone
  end.


Definition chars (s : string) : list ascii := list_ascii_of_string s.


Definition no_space (s : string) : Prop :=
  Forall (fun a => a <> space) (chars s).


(** The strings among the elements of a list. *)
Definition strings_of (lst : list pyval) : list string :=
  omap (fun t => match t with VStr s => Some s | _ => None end) lst.

Definition is_none (v : pyval) : bool :=
  match v with VNone => true | _ => false end.

(** A parsed column as the pipeline stores it: a list, or no column. *)
Definition list_column (row : gmap string pyval) (k : string) : Prop :=
  row !! k = None \/ exists l, row !! k = Some (VList l).

(** The tokens a parsed column contributes to the tags of a row. *)
Definition column_tokens (row : gmap string pyval) (k : string) : list string :=
  match row !! k with
  | Some (VList l) => clean_token_list l
  | _ => []
  end.

Definition nonempty (s : string) : bool := negb (str_is_empty s).

(** What the synopsis contributes to the tags of a row. *)
Definition overview_part (row : gmap string pyval) : list string :=
  let overview := row_get row "overview" in
  if truthy overview then [py_str overview] else [].

(** The tokens of the four parsed columns, in the order of [make_tags]. *)
Definition tag_tokens (row : gmap string pyval) : list string :=
  column_tokens row "genres_parsed" ++ column_tokens row "keywords_parsed"
  ++ column_tokens row "cast_parsed" ++ column_tokens row "director_parsed".

Definition list_columns (row : gmap string pyval) : Prop :=
  list_column row "genres_parsed" /\ list_column row "keywords_parsed" /\
  list_column row "cast_parsed" /\ list_column row "director_parsed".

(** A record on which [get_crew_director] raises: its ["job"] is truthy and
    has no [lower] method. *)
Definition bad_job (item : pyval) : bool :=
  match item with
  | VDict d =>
      let job := dict_get "job" d in
      truthy job && negb (is_ok (py_lower job))
  | _ => false
  end.

Definition only_spaces (s : string) : Prop :=
  Forall (fun a => a = space) (chars s).

(** No two quote characters side by side. *)
Fixpoint no_doubled_quotes (s : string) : bool :=
  match s with
  | EmptyString => true
  | String a t =>
      match t with
      | String b _ =>
          negb (Ascii.eqb a dquote && Ascii.eqb b dquote) && no_doubled_quotes t
      | EmptyString => true
      end
  end.

(** The columns [make_tags] reads. *)
Definition parsed_keys : list string :=
  ["genres_parsed"; "keywords_parsed"; "cast_parsed"; "director_parsed"].

Definition tag_keys : list string := "overview" :: parsed_keys.


(** [pd.read_csv] on what a path holds. *)
Definition read_node (n : option node) : result DataFrame :=
  match n with
  | Some (File c) => read_csv c
  | Some Directory => Raise IsADirectoryError
  | None => Raise FileNotFoundError
  end.

(** What [main] computes from the two tables before it writes: the enriched
    table and the similarity matrix. *)
Definition build (movies credits : DataFrame)
  : result (DataFrame * list (list R)) :=
  ids ← getcol movies "id";
  let movies := setcol movies "movie_id" ids in
  genres ← getcol movies "genres" ≫= series_apply parse_field;
  let movies := setcol movies "genres_parsed" (map str_list genres) in
  keywords ← getcol movies "keywords" ≫= series_apply parse_field;
  let movies := setcol movies "keywords_parsed" (map str_list keywords) in
  merged ← merge_credits movies credits;
  cast ← getcol merged "cast" ≫= series_apply get_cast;
  let merged := setcol merged "cast_parsed" (map str_list cast) in
  director ← getcol merged "crew" ≫= series_apply get_crew_director;
  let merged := setcol merged "director_parsed" (map VList director) in
  tags ← mapM make_tags (rows merged);
  let merged := setcol merged "tags" (map (fun t => VStr t) tags) in
  vectors ← getcol merged "tags" ≫= (fun col => fit_transform (map py_str col));
  Ok (merged, Similarity.cosine_similarity vectors).

Definition load_and_build (w : world) : result (DataFrame * list (list R)) :=
  movies ← read_node (fs w !! movies_csv);
  credits ← read_node (fs w !! credits_csv);
  build movies credits.

(** The writing end of [main]. *)
Definition save (out : DataFrame * list (list R)) : io unit :=
  makedirs "model";;
  pickle_dump (PickledFrame (fst out)) movie_list_pkl;;
  pickle_dump (PickledMatrix (snd out)) similarity_pkl;;
  print built_message.

(** The paths [main] writes. *)
Definition output_paths : list string := ["model"; movie_list_pkl; similarity_pkl].


(** ** The structured-field decoder *)

Lemma decode_missing (x : scalar) : pd_isna x = true -> decode x = None.
Proof. destruct x as [| | |[]|]; simpl; try discriminate; reflexivity. Qed.

Lemma decode_not_str (x : scalar) : (forall s, x <> SStr s) -> decode x = None.
Proof. destruct x; intros H; try reflexivity. now destruct (H s). Qed.

Lemma decode_str (s : string) :
  decode (SStr s) =
    match literal_eval s with
    | Ok data => Some data
    | Raise _ =>
        match literal_eval (collapse_doubled_quotes s) with
        | Ok data => Some data
        | Raise _ => None
        end
    end.
Proof. reflexivity. Qed.

Lemma py_or_name (d : list (pyval * pyval)) :
  (if truthy (py_or (dict_get "name" d) (dict_get "title" d))
   then Some (py_str (py_or (dict_get "name" d) (dict_get "title" d)))
   else None) = record_name (VDict d).
Proof.
  unfold py_or, dict_get. simpl.
  destruct (dict_lookup "name" d) as [v|]; simpl.
  - destruct (truthy v) eqn:Hv; [now rewrite Hv|].
    destruct (dict_lookup "title" d) as [t|]; reflexivity.
  - destruct (dict_lookup "title" d) as [t|]; reflexivity.
Qed.

Lemma parse_field_item_good (names : list string) (item : pyval) :
  unprintable_name item = false ->
  parse_field_item names item = Ok (names ++ option_list (record_name item)).
Proof.
  destruct item as [c|b|re im| |l|l|l|d];
    try (intros _; simpl; now rewrite app_nil_r).
  unfold parse_field_item, unprintable_name. rewrite <- py_or_name.
  unfold py_str_checked.
  destruct (truthy (py_or (dict_get "name" d) (dict_get "title" d))); simpl.
  - now intros ->.
  - intros _. now rewrite app_nil_r.
Qed.

Lemma parse_field_item_bad (names : list string) (item : pyval) :
  unprintable_name item = true ->
  parse_field_item names item = Raise ValueError.
Proof.
  destruct item as [c|b|re im| |l|l|l|d]; simpl; try discriminate.
  unfold py_str_checked.
  destruct (truthy (py_or (dict_get "name" d) (dict_get "title" d))); simpl;
    [|discriminate].
  now intros ->.
Qed.

Lemma foldM_parse_field_item_good (items : list pyval) (names : list string) :
  existsb unprintable_name items = false ->
  foldM parse_field_item items names = Ok (names ++ omap record_name items).
Proof.
  revert names. induction items as [|item items IH]; intros names; simpl.
  - intros _. now rewrite app_nil_r.
  - intros H. apply orb_false_iff in H as [Hitem Hitems].
    rewrite (parse_field_item_good _ _ Hitem). simpl.
    rewrite (IH _ Hitems), <- app_assoc. now destruct (record_name item).
Qed.

Lemma foldM_parse_field_item_bad (items : list pyval) (names : list string) :
  existsb unprintable_name items = true ->
  foldM parse_field_item items names = Raise ValueError.
Proof.
  revert names. induction items as [|item items IH]; intros names; simpl;
    [discriminate|].
  destruct (unprintable_name item) eqn:Hitem; simpl.
  - intros _. now rewrite (parse_field_item_bad _ _ Hitem).
  - intros H. rewrite (parse_field_item_good _ _ Hitem). simpl. now apply IH.
Qed.

Lemma parse_field_printable (x : scalar) :
  existsb unprintable_name (records x) = false ->
  parse_field x = Ok (omap record_name (records x)).
Proof.
  unfold parse_field, records. destruct (pd_isna x); [reflexivity|].
  destruct (decode x) as [data|]; [|reflexivity].
  destruct data; try reflexivity. simpl. apply foldM_parse_field_item_good.
Qed.

Lemma parse_field_unprintable (x : scalar) :
  existsb unprintable_name (records x) = true ->
  parse_field x = Raise ValueError.
Proof.
  unfold parse_field, records. destruct (pd_isna x); [discriminate|].
  destruct (decode x) as [data|]; [|discriminate].
  destruct data; try discriminate. simpl. apply foldM_parse_field_item_bad.
Qed.

Lemma parse_field_ok (x : scalar) (names : list string) :
  parse_field x = Ok names ->
  names = omap record_name (records x) /\
  existsb unprintable_name (records x) = false.
Proof.
  destruct (existsb unprintable_name (records x)) eqn:H.
  - rewrite (parse_field_unprintable _ H). discriminate.
  - rewrite (parse_field_printable _ H). now intros [= <-].
Qed.

(** C5. [parse_field] answers the empty list for a missing cell; otherwise it
    decodes the cell as it is and, when that fails, once more with doubled
    quotes collapsed; when both attempts fail (as they do for a cell that is
    not a string) it answers the empty list and does not raise.  For a cell
    that decodes, the answer is that of the loop over the decoded value,
    whose only exception is the [ValueError] of [str] on a name beyond the
    digit limit. *)
Theorem parse_field_contract (x : scalar) :
  (pd_isna x = true -> parse_field x = Ok []) /\
  (forall s data, x = SStr s -> literal_eval s = Ok data ->
     parse_field x = parse_field_names data) /\
  (forall s e data, x = SStr s -> literal_eval s = Raise e ->
     literal_eval (collapse_doubled_quotes s) = Ok data ->
     parse_field x = parse_field_names data) /\
  (forall s e e', x = SStr s -> literal_eval s = Raise e ->
     literal_eval (collapse_doubled_quotes s) = Raise e' ->
     parse_field x = Ok []) /\
  ((forall s, x <> SStr s) -> parse_field x = Ok []) /\
  (decode x = None -> parse_field x = Ok []) /\
  (forall e, parse_field x = Raise e ->
     e = ValueError /\ exists data, decode x = Some data /\
     existsb unprintable_name (records x) = true) /\
  (existsb unprintable_name (records x) = false ->
     parse_field x = Ok (omap record_name (records x))).
Proof.
  split; [|split; [|split; [|split; [|split; [|split; [|split]]]]]].
  - intros H. unfold parse_field. now rewrite H.
  - intros s data -> H. unfold parse_field. simpl. rewrite decode_str, H.
    reflexivity.
  - intros s e data -> H1 H2. unfold parse_field. simpl.
    rewrite decode_str, H1, H2. reflexivity.
  - intros s e e' -> H1 H2. unfold parse_field. simpl.
    rewrite decode_str, H1, H2. reflexivity.
  - intros H. unfold parse_field. rewrite (decode_not_str x H).
    now destruct (pd_isna x).
  - intros H. unfold parse_field. rewrite H. now destruct (pd_isna x).
  - intros e He.
    destruct (existsb unprintable_name (records x)) eqn:Hbad.
    + rewrite (parse_field_unprintable _ Hbad) in He. injection He as <-.
      split; [reflexivity|].
      unfold records in Hbad. destruct (pd_isna x); [discriminate|].
      destruct (decode x) as [data|]; [eauto|discriminate].
    + rewrite (parse_field_printable _ Hbad) in He. discriminate.
  - apply parse_field_printable.
Qed.

(** ** The cast field *)

Lemma slice_to_3 {A} (l : list A) : slice_to 3 l = firstn 3 l.
Proof. reflexivity. Qed.

Lemma get_cast_n_ok (top_n : Z) (x : scalar) (names : list string) :
  get_cast_n top_n x = Ok names ->
  exists all, parse_field x = Ok all /\ names = slice_to top_n all.
Proof.
  unfold get_cast_n. destruct (parse_field x) as [all|e]; simpl;
    [|discriminate].
  intros [= <-]. eauto.
Qed.

(** C6. The names [get_cast] returns are at most three, and they are the
    first names of the list [parse_field] decodes, which lists the names of
    the records in the order of the records.  On a field whose names can all
    be turned into text, as the names of a well-formed cast field can,
    [get_cast] returns. *)
Theorem get_cast_prefix (x : scalar) :
  (forall names, get_cast x = Ok names ->
     (length names <= 3)%nat /\
     exists rest,
       parse_field x = Ok (names ++ rest) /\
       names ++ rest = omap record_name (records x)) /\
  (existsb unprintable_name (records x) = false ->
     get_cast x = Ok (firstn 3 (omap record_name (records x)))).
Proof.
  split.
  - intros names H. apply get_cast_n_ok in H as (all & Hall & ->).
    rewrite slice_to_3. split; [apply firstn_le_length|].
    exists (skipn 3 all). rewrite firstn_skipn. split; [exact Hall|].
    now apply parse_field_ok in Hall.
  - intros H. unfold get_cast, get_cast_n.
    now rewrite (parse_field_printable _ H).
Qed.

(** ** The role filter *)

Lemma get_crew_director_item_spec (directors : list pyval) (item : pyval) r :
  get_crew_director_item directors item = Ok r ->
  r = directors ++ (if is_director item then [director_entry item] else []).
Proof.
  destruct item as [c|b|re im| |l|l|l|d]; simpl;
    try (intros [= <-]; now rewrite app_nil_r).
  unfold dict_get. destruct (dict_lookup "job" d) as [v|]; simpl;
    [|intros [= <-]; now rewrite app_nil_r].
  destruct (truthy v) eqn:Hv; [|intros [= <-]].
  - destruct v as [[| | | |s]|b|re im| |l|l|l|d']; simpl; try discriminate.
    + destruct (String.eqb (str_lower s) "director"); intros [= <-];
        now rewrite ?app_nil_r.
    + intros [= <-]; now rewrite app_nil_r.
  - destruct v as [[| | | |s]|b|re im| |l|l|l|d']; rewrite ?app_nil_r;
      try reflexivity.
    destruct s; [simpl; now rewrite app_nil_r|discriminate].
Qed.

Lemma foldM_get_crew_director_item (items : list pyval) (acc r : list pyval) :
  foldM get_crew_director_item items acc = Ok r ->
  r = acc ++ map director_entry (List.filter is_director items).
Proof.
  revert acc. induction items as [|item items IH]; intros acc; simpl.
  - intros [= <-]. now rewrite app_nil_r.
  - destruct (get_crew_director_item acc item) as [acc'|e] eqn:Hitem;
      simpl; [|discriminate].
    intros H. apply IH in H. subst r.
    apply get_crew_director_item_spec in Hitem. subst acc'.
    destruct (is_director item); simpl; now rewrite <- ?app_assoc, ?app_nil_r.
Qed.

Lemma get_crew_director_records (x : scalar) (directors : list pyval) :
  get_crew_director x = Ok directors ->
  directors = map director_entry (List.filter is_director (records x)).
Proof.
  unfold get_crew_director, records. destruct (pd_isna x); [now intros [= <-]|].
  destruct (decode x) as [data|]; [|now intros [= <-]].
  destruct data; try (now intros [= <-]).
  intros H. now apply foldM_get_crew_director_item in H.
Qed.

Lemma is_director_job (item : pyval) :
  is_director item = true ->
  exists d job, item = VDict d /\ dict_lookup "job" d = Some (VStr job) /\
                str_lower job = "director".
Proof.
  destruct item as [c|b|re im| |l|l|l|d]; simpl; try discriminate.
  destruct (dict_lookup "job" d) as [v|] eqn:Hjob; [|discriminate].
  destruct v as [[| | | |job]|b|re im| |l|l|l|d']; try discriminate.
  intros H. apply String.eqb_eq in H. exists d, job. auto.
Qed.

(** C7. What [get_crew_director] returns is, in order, what the records
    whose ["job"] is a string equal to ["director"] up to case contribute;
    a record without ["job"] contributes nothing. *)
Theorem get_crew_director_only_directors (x : scalar) (directors : list pyval) :
  get_crew_director x = Ok directors ->
  directors = map director_entry (List.filter is_director (records x)) /\
  (forall item, In item (List.filter is_director (records x)) ->
     exists d job, item = VDict d /\ dict_lookup "job" d = Some (VStr job) /\
                   str_lower job = "director") /\
  (forall d, dict_lookup "job" d = None -> is_director (VDict d) = false).
Proof.
  intros H. split; [now apply get_crew_director_records|]. split.
  - intros item Hin. apply filter_In in Hin as [_ Hdir].
    now apply is_director_job.
  - intros d Hjob. simpl. now rewrite Hjob.
Qed.

(** ** The tag token normalizer *)

Lemma clean_token_list_strings (lst : list pyval) :
  clean_token_list lst = map clean_token (strings_of lst).
Proof.
  induction lst as [|t lst IH]; [reflexivity|].
  unfold clean_token_list, strings_of in *. simpl.
  destruct t as [[| | | |s]|b|re im| |l|l|l|d]; simpl;
    first [exact IH | f_equal; exact IH].
Qed.


Lemma lower_ascii_space (a : ascii) : lower_ascii a = space -> a = space.
Proof. destruct a as [[] [] [] [] [] [] [] []]; simpl; intros H; try reflexivity; discriminate H. Qed.


Lemma no_space_remove_spaces (s : string) : no_space (remove_spaces s).
Proof.
  induction s as [|a s IH]; [constructor|]. simpl.
  destruct (Ascii.eqb a space) eqn:Ha; [exact IH|].
  constructor; [|exact IH]. now apply Ascii.eqb_neq.
Qed.

Lemma no_space_str_lower (s : string) : no_space s -> no_space (str_lower s).
Proof.
  induction s as [|a s IH]; [constructor|].
  unfold no_space, chars. simpl. intros H. apply Forall_cons in H as [Ha Hs].
  constructor; [|now apply IH].
  intros Hl. apply Ha. now apply lower_ascii_space.
Qed.




(** ** The item tag aggregator *)

Lemma iter_list_column (row : gmap string pyval) (k : string) :
  list_column row k ->
  clean_token_list <$> py_iter (py_or (row_get row k) (VList [])) =
    Ok (column_tokens row k).
Proof.
  unfold row_get, column_tokens. intros [H|[l H]]; rewrite H; simpl.
  - reflexivity.
  - now destruct l.
Qed.

Lemma filter_truthy_strs (l : list string) :
  List.filter truthy (map (fun s => VStr s) l) =
    map (fun s => VStr s) (List.filter nonempty l).
Proof.
  induction l as [|s l IH]; [reflexivity|]. simpl. unfold nonempty.
  destruct (str_is_empty s); simpl; now rewrite IH.
Qed.

Lemma map_py_str_strs (l : list string) : map py_str (map (fun s => VStr s) l) = l.
Proof. induction l as [|s l IH]; simpl; congruence. Qed.

(** The tags of a row whose parsed columns are lists: what the synopsis
    contributes, then the non-empty tokens of the genres, of the keywords,
    of the cast and of the director, joined by single spaces. *)
Lemma make_tags_list_columns (row : gmap string pyval) :
  list_columns row ->
  make_tags row =
    Ok (join_space (overview_part row ++ List.filter nonempty (tag_tokens row))).
Proof.
  intros (Hg & Hk & Hc & Hd). unfold make_tags.
  rewrite (iter_list_column _ _ Hg), (iter_list_column _ _ Hk),
    (iter_list_column _ _ Hc), (iter_list_column _ _ Hd).
  simpl. fold (tag_tokens row). unfold overview_part, py_or.
  destruct (truthy (row_get row "overview")) eqn:Hov.
  - rewrite Hov. simpl. now rewrite filter_truthy_strs, map_py_str_strs.
  - simpl. now rewrite filter_truthy_strs, map_py_str_strs.
Qed.

(** C4, at a row without synopsis. [read_csv] stores NaN in an empty cell;
    NaN is truthy, [or] keeps it, and its text is the first tag: the absent
    synopsis contributes the token [nan]. *)
Theorem make_tags_nan_overview :
  row_get Sample.row_without_overview "overview" = VScalar NaN /\
  make_tags Sample.row_without_overview = Ok "nan action tomhanks".
Proof. split; vm_compute; reflexivity. Qed.

(** ** Directors without a name *)

Lemma clean_token_list_drop_none (lst : list pyval) :
  clean_token_list lst = clean_token_list (List.filter (fun v => negb (is_none v)) lst).
Proof.
  rewrite !clean_token_list_strings. f_equal.
  induction lst as [|t lst IH]; [reflexivity|].
  destruct t as [[| | | |s]|b|re im| |l|l|l|d]; simpl; unfold strings_of in *;
    simpl; first [exact IH | f_equal; exact IH].
Qed.

Lemma overview_part_insert (row : gmap string pyval) (k : string) (v : pyval) :
  k <> "overview" -> overview_part (<[k:=v]> row) = overview_part row.
Proof.
  intros Hk. unfold overview_part, row_get. now rewrite lookup_insert_ne.
Qed.

Lemma column_tokens_insert_ne (row : gmap string pyval) (k k' : string) (v : pyval) :
  k <> k' -> column_tokens (<[k:=v]> row) k' = column_tokens row k'.
Proof. intros Hk. unfold column_tokens. now rewrite lookup_insert_ne. Qed.

Lemma column_tokens_insert (row : gmap string pyval) (k : string) (l : list pyval) :
  column_tokens (<[k:=VList l]> row) k = clean_token_list l.
Proof. unfold column_tokens. now rewrite lookup_insert_eq. Qed.

(** C10. A record whose ["job"] is ["director"] up to case and which has no
    ["name"] puts [None] in the list [get_crew_director] returns;
    [clean_token_list] drops it, and the tags of a row built with that list
    are computed, and are those of the row without the [None] entries. *)
Theorem nameless_director_is_none
    (x : scalar) (d : list (pyval * pyval)) (job : string) (directors : list pyval) :
  In (VDict d) (records x) ->
  dict_lookup "job" d = Some (VStr job) ->
  str_lower job = "director" ->
  dict_lookup "name" d = None ->
  get_crew_director x = Ok directors ->
  In VNone directors /\
  clean_token_list directors =
    clean_token_list (List.filter (fun v => negb (is_none v)) directors) /\
  forall row,
    list_column row "genres_parsed" -> list_column row "keywords_parsed" ->
    list_column row "cast_parsed" ->
    exists tags,
      make_tags (<["director_parsed" := VList directors]> row) = Ok tags /\
      make_tags (<["director_parsed" :=
                     VList (List.filter (fun v => negb (is_none v)) directors)]> row)
        = Ok tags.
Proof.
  intros Hin Hjob Hlow Hname Hrun.
  apply get_crew_director_records in Hrun.
  split; [|split].
  - subst directors.
    replace VNone with (director_entry (VDict d))
      by (simpl; unfold dict_get; now rewrite Hname).
    apply in_map, filter_In. split; [exact Hin|].
    simpl. rewrite Hjob. now apply String.eqb_eq.
  - apply clean_token_list_drop_none.
  - intros row Hg Hk Hc.
    assert (Hcols : forall l, list_columns (<["director_parsed" := VList l]> row)).
    { intros l. unfold list_columns, list_column.
      rewrite !lookup_insert_ne by discriminate. rewrite lookup_insert_eq.
      repeat split; eauto. }
    eexists. split; [apply make_tags_list_columns, Hcols|].
    rewrite (make_tags_list_columns _ (Hcols _)).
    unfold tag_tokens. rewrite !overview_part_insert by discriminate.
    rewrite !column_tokens_insert.
    repeat (rewrite column_tokens_insert_ne by discriminate).
    now rewrite <- clean_token_list_drop_none.
Qed.

(** ** The script *)

Lemma io_bind_ok {A B} (c : io A) (k : A -> io B) (w w' : world) (b : B) :
  (c ≫= k) w = (Ok b, w') ->
  exists a w1, c w = (Ok a, w1) /\ k a w1 = (Ok b, w').
Proof.
  unfold mbind, io_bind. destruct (c w) as [[a|e] w1]; [eauto|discriminate].
Qed.

Lemma lift_ok {A} (r : result A) (w w' : world) (a : A) :
  lift r w = (Ok a, w') -> r = Ok a /\ w' = w.
Proof. unfold lift. now intros [= -> ->]. Qed.

Lemma result_bind_ok {A B} (c : result A) (k : A -> result B) (b : B) :
  c ≫= k = Ok b -> exists a, c = Ok a /\ k a = Ok b.
Proof. destruct c as [a|e]; simpl; [eauto|discriminate]. Qed.

Lemma read_csv_path_ok (p : string) (w w' : world) (df : DataFrame) :
  read_csv_path p w = (Ok df, w') -> w' = w.
Proof.
  unfold read_csv_path. destruct (fs w !! p) as [[|c]|]; now intros [= _ ->].
Qed.

Lemma makedirs_ok (p : string) (w w' : world) :
  makedirs p w = (Ok tt, w') ->
  stdout w' = stdout w /\ forall q, q <> p -> fs w' !! q = fs w !! q.
Proof.
  unfold makedirs. destruct (fs w !! p) as [[|c]|]; intros [= <-]; simpl;
    split; auto.
  intros q Hq. now apply lookup_insert_ne.
Qed.

Lemma pickle_dump_ok (obj : content) (p : string) (w w' : world) :
  pickle_dump obj p w = (Ok tt, w') ->
  w' = {| fs := <[p:=File obj]> (fs w); stdout := stdout w |}.
Proof.
  unfold pickle_dump. destruct (fs w !! p) as [[|c]|]; now intros [= <-].
Qed.

Lemma mapM_ok {A B} (f : A -> result B) (l : list A) (bs : list B) :
  mapM f l = Ok bs -> Forall2 (fun a b => f a = Ok b) l bs.
Proof.
  revert bs. induction l as [|a l IH]; intros bs; simpl.
  - intros [= <-]. constructor.
  - destruct (f a) as [b|e] eqn:Hb; simpl; [|discriminate].
    destruct (mapM f l) as [bs'|e]; simpl; [|discriminate].
    intros [= <-]. constructor; auto.
Qed.

Lemma getcol_setcol (df : DataFrame) (c : string) (values : list pyval) :
  length values = length (rows df) ->
  getcol (setcol df c values) c = Ok values.
Proof.
  intros Hlen. unfold getcol, setcol. simpl.
  destruct (decide (c ∈ columns df)) as [Hc|Hc].
  - rewrite decide_True by exact Hc. f_equal.
    revert values Hlen. induction (rows df) as [|r rs IH]; intros [|v vs] Hlen;
      simpl in *; try discriminate; [reflexivity|].
    unfold row_get at 1. rewrite lookup_insert_eq. simpl. f_equal.
    apply IH. lia.
  - rewrite decide_True by (apply elem_of_app; right; apply list_elem_of_singleton; reflexivity).
    f_equal.
    revert values Hlen. induction (rows df) as [|r rs IH]; intros [|v vs] Hlen;
      simpl in *; try discriminate; [reflexivity|].
    unfold row_get at 1. rewrite lookup_insert_eq. simpl. f_equal.
    apply IH. lia.
Qed.

Lemma make_tags_insert_tags (row : gmap string pyval) (v : pyval) :
  make_tags (<["tags":=v]> row) = make_tags row.
Proof.
  unfold make_tags, row_get. now rewrite !lookup_insert_ne by discriminate.
Qed.

Lemma setcol_tags_rows (rs : list (gmap string pyval)) (tags : list string) :
  Forall2 (fun r t => make_tags r = Ok t) rs tags ->
  Forall2 (fun r t => r !! "tags" = Some (VStr t) /\ make_tags r = Ok t)
    (zip_with (fun r v => <["tags":=v]> r) rs (map (fun t => VStr t) tags)) tags.
Proof.
  induction 1 as [|r t rs tags Hrt _ IH]; simpl; constructor; [|exact IH].
  split; [apply lookup_insert_eq|]. now rewrite make_tags_insert_tags.
Qed.

(** C9. When one of the two input files is absent, [main] prints the line
    that names both files and returns, without raising and without
    touching the file system. *)
Theorem main_missing_input (w : world) :
  path_exists movies_csv w = false \/ path_exists credits_csv w = false ->
  main w = (Ok tt, {| fs := fs w; stdout := stdout w ++ [missing_message] |}) /\
  (exists a b, missing_message = a +:+ movies_csv +:+ b) /\
  (exists a b, missing_message = a +:+ credits_csv +:+ b).
Proof.
  intros H. split; [|split].
  - unfold main.
    replace (path_exists movies_csv w && path_exists credits_csv w) with false
      by (destruct H as [-> | ->]; [reflexivity|now rewrite andb_false_r]).
    reflexivity.
  - exists ("Required CSV files not found. Place " +:+ dq),
      (dq +:+ " and " +:+ dq +:+ "Credits 500.csv" +:+ dq +:+ " here.").
    reflexivity.
  - exists ("Required CSV files not found. Place " +:+ dq +:+ "Movies 500.csv"
            +:+ dq +:+ " and " +:+ dq),
      (dq +:+ " here.").
    reflexivity.
Qed.

(** ** The similarity matrix *)

Section SimilarityFacts.

Import Similarity.
Local Open Scope R_scope.

Lemma lookup_map {A B} (f : A -> B) (l : list A) (i : nat) :
  map f l !! i = f <$> l !! i.
Proof.
  revert i. induction l as [|a l IH]; intros [|i]; simpl; try reflexivity.
  apply IH.
Qed.

Lemma entry_gram (A : list (list R)) (i j : nat) :
  entry (gram A) i j =
    match A !! i, A !! j with
    | Some a, Some b => Some (dot a b)
    | _, _ => None
    end.
Proof.
  unfold entry, gram. rewrite lookup_map.
  destruct (A !! i) as [a|]; simpl; [|reflexivity].
  rewrite lookup_map. now destruct (A !! j).
Qed.

Lemma entry_cosine_similarity (vectors : list (list nat)) (i j : nat) :
  entry (cosine_similarity vectors) i j =
    match vectors !! i, vectors !! j with
    | Some u, Some v =>
        Some (dot (normalize_row (map INR u)) (normalize_row (map INR v)))
    | _, _ => None
    end.
Proof.
  unfold cosine_similarity, normalize. rewrite entry_gram, !lookup_map.
  destruct (vectors !! i), (vectors !! j); reflexivity.
Qed.

Lemma length_cosine_similarity (vectors : list (list nat)) :
  length (cosine_similarity vectors) = length vectors.
Proof. unfold cosine_similarity, normalize, gram. now rewrite !length_map. Qed.

Lemma dot_comm (u v : list R) : dot u v = dot v u.
Proof.
  revert v. induction u as [|x u IH]; intros [|y v]; simpl; try reflexivity.
  rewrite IH. ring.
Qed.

(** C2. The similarity matrix of any count matrix is square, with as many
    rows and columns as the count matrix has rows, and symmetric. *)
Theorem cosine_similarity_symmetric (vectors : list (list nat)) :
  length (cosine_similarity vectors) = length vectors /\
  Forall (fun r => length r = length vectors) (cosine_similarity vectors) /\
  forall i j : nat,
    entry (cosine_similarity vectors) i j = entry (cosine_similarity vectors) j i.
Proof.
  split; [apply length_cosine_similarity|]. split.
  - unfold cosine_similarity, normalize, gram. apply List.Forall_forall.
    intros r Hr. apply in_map_iff in Hr as [a [<- _]]. now rewrite !length_map.
  - intros i j. rewrite !entry_cosine_similarity.
    destruct (vectors !! i), (vectors !! j); try reflexivity.
    now rewrite dot_comm.
Qed.

End SimilarityFacts.

Lemma mapM_length {A B} (f : A -> result B) (l : list A) (bs : list B) :
  mapM f l = Ok bs -> length bs = length l.
Proof. intros H. apply mapM_ok in H. symmetry. exact (Forall2_length _ _ _ H). Qed.

Lemma length_setcol (df : DataFrame) (c : string) (values : list pyval) :
  length values = length (rows df) ->
  length (rows (setcol df c values)) = length (rows df).
Proof. intros H. simpl. rewrite length_zip_with. lia. Qed.

(** C3. The vectorizer counts document by document: the rows of the matrix
    [fit_transform] returns are the count vectors [transform voc doc] of the
    documents, in their order, for the vocabulary [voc] it has fitted.  Then
    a run of [main] that finds its two inputs and returns has written one
    table and one matrix with a row and a column for each row of the table,
    and the entry [i], [j] of the matrix is the similarity of the count
    vectors of the tags of the rows [i] and [j] of the written table, the
    tag of a row being the one [make_tags] computes for it: nothing is
    reordered between the table and the matrix. *)
Theorem main_outputs_aligned
    {vocabulary : Type} (transform : vocabulary -> string -> list nat)
    (w : world) :
  (forall docs vectors, fit_transform docs = Ok vectors ->
     exists voc, vectors = map (transform voc) docs) ->
  path_exists movies_csv w = true ->
  path_exists credits_csv w = true ->
  fst (main w) = Ok tt ->
  exists out_movies tags voc,
    fs (snd (main w)) !! movie_list_pkl = Some (File (PickledFrame out_movies)) /\
    fs (snd (main w)) !! similarity_pkl =
      Some (File (PickledMatrix
                    (Similarity.cosine_similarity (map (transform voc) tags)))) /\
    Forall2 (fun r t => r !! "tags" = Some (VStr t) /\ make_tags r = Ok t)
      (rows out_movies) tags /\
    fit_transform tags = Ok (map (transform voc) tags) /\
    length (Similarity.cosine_similarity (map (transform voc) tags))
      = length (rows out_movies) /\
    forall i j ri rj,
      rows out_movies !! i = Some ri -> rows out_movies !! j = Some rj ->
      exists ti tj,
        ri !! "tags" = Some (VStr ti) /\ make_tags ri = Ok ti /\
        rj !! "tags" = Some (VStr tj) /\ make_tags rj = Ok tj /\
        Similarity.entry
          (Similarity.cosine_similarity (map (transform voc) tags)) i j =
          Some (Similarity.dot
                  (Similarity.normalize_row (map INR (transform voc ti)))
                  (Similarity.normalize_row (map INR (transform voc tj)))).
Proof.
  intros Hfit Hm Hc Hrun.
  destruct (main w) as [r w'] eqn:Hmain. simpl in Hrun. subst r. simpl.
  rename Hmain into Hrun. unfold main in Hrun. rewrite Hm, Hc in Hrun.
  cbn [negb andb] in Hrun.
  apply io_bind_ok in Hrun as (movies & w1 & Hmovies & Hrun).
  apply read_csv_path_ok in Hmovies as ->.
  apply io_bind_ok in Hrun as (credits & w1 & Hcredits & Hrun).
  apply read_csv_path_ok in Hcredits as ->.
  apply io_bind_ok in Hrun as (ids & w1 & Hids & Hrun).
  apply lift_ok in Hids as [Hids ->].
  apply io_bind_ok in Hrun as (genres & w1 & Hgenres & Hrun).
  apply lift_ok in Hgenres as [Hgenres ->].
  apply io_bind_ok in Hrun as (keywords & w1 & Hkeywords & Hrun).
  apply lift_ok in Hkeywords as [Hkeywords ->].
  apply io_bind_ok in Hrun as (merged & w1 & Hmerged & Hrun).
  apply lift_ok in Hmerged as [Hmerged ->].
  apply io_bind_ok in Hrun as (cast & w1 & Hcast & Hrun).
  apply lift_ok in Hcast as [Hcast ->].
  apply io_bind_ok in Hrun as (director & w1 & Hdirector & Hrun).
  apply lift_ok in Hdirector as [Hdirector ->].
  apply io_bind_ok in Hrun as (tags & w1 & Htags & Hrun).
  apply lift_ok in Htags as [Htags ->].
  apply io_bind_ok in Hrun as (vectors & w1 & Hvectors & Hrun).
  apply lift_ok in Hvectors as [Hvectors ->].
  apply io_bind_ok in Hrun as ([] & w1 & Hdirs & Hrun).
  apply io_bind_ok in Hrun as ([] & w2 & Hdump1 & Hrun).
  apply io_bind_ok in Hrun as ([] & w3 & Hdump2 & Hrun).
  apply pickle_dump_ok in Hdump1, Hdump2. injection Hrun as <-.
  set (table := setcol (setcol merged "cast_parsed" (map str_list cast))
                  "director_parsed" (map VList director)) in *.
  pose proof (mapM_ok _ _ _ Htags) as Hrows.
  pose proof (mapM_length _ _ _ Htags) as Hlen.
  rewrite getcol_setcol in Hvectors by now rewrite length_map.
  simpl in Hvectors. rewrite map_py_str_strs in Hvectors.
  destruct (Hfit _ _ Hvectors) as [voc ->].
  pose proof (setcol_tags_rows _ _ Hrows) as Haligned.
  exists (setcol table "tags" (map (fun t => VStr t) tags)), tags, voc.
  subst w3 w2. cbn [fs stdout].
  split; [|split; [|split; [|split; [|split]]]].
  - rewrite lookup_insert_ne by discriminate. apply lookup_insert_eq.
  - apply lookup_insert_eq.
  - exact Haligned.
  - exact Hvectors.
  - rewrite length_cosine_similarity, length_map.
    rewrite length_setcol by now rewrite length_map. exact Hlen.
  - intros i j ri rj Hi Hj.
    destruct (Forall2_lookup_l _ _ _ _ _ Haligned Hi) as (ti & Hti & Hi1 & Hi2).
    destruct (Forall2_lookup_l _ _ _ _ _ Haligned Hj) as (tj & Htj & Hj1 & Hj2).
    exists ti, tj. repeat (split; [assumption|]).
    rewrite entry_cosine_similarity, !lookup_map, Hti, Htj. reflexivity.
Qed.

(** ** Further properties of the decoders *)

Lemma get_crew_director_item_good (directors : list pyval) (item : pyval) :
  bad_job item = false ->
  get_crew_director_item directors item =
    Ok (directors ++ (if is_director item then [director_entry item] else [])).
Proof.
  intros Hbad.
  destruct (get_crew_director_item directors item) as [r|e] eqn:Hrun.
  - f_equal. now apply get_crew_director_item_spec.
  - exfalso. destruct item as [c|b|re im| |l|l|l|d]; simpl in *; try discriminate.
    destruct (truthy (dict_get "job" d)); [|discriminate]. simpl in Hbad.
    destruct (py_lower (dict_get "job" d)) as [job|e']; [|discriminate].
    simpl in Hrun. now destruct (py_eq_str job "director").
Qed.

Lemma get_crew_director_item_bad (directors : list pyval) (item : pyval) :
  bad_job item = true ->
  get_crew_director_item directors item = Raise AttributeError.
Proof.
  destruct item as [c|b|re im| |l|l|l|d]; simpl; try discriminate.
  destruct (truthy (dict_get "job" d)); [|discriminate]. simpl.
  destruct (dict_get "job" d) as [[| | | |s]|b|re im| |l|l|l|d']; simpl;
    try discriminate; reflexivity.
Qed.

Lemma foldM_get_crew_director_item_good (items acc : list pyval) :
  existsb bad_job items = false ->
  foldM get_crew_director_item items acc =
    Ok (acc ++ map director_entry (List.filter is_director items)).
Proof.
  revert acc. induction items as [|item items IH]; intros acc; simpl.
  - intros _. now rewrite app_nil_r.
  - intros H. apply orb_false_iff in H as [Hitem Hitems].
    rewrite (get_crew_director_item_good _ _ Hitem). simpl.
    rewrite (IH _ Hitems). f_equal.
    destruct (is_director item); simpl; now rewrite <- ?app_assoc, ?app_nil_r.
Qed.

Lemma foldM_get_crew_director_item_bad (items acc : list pyval) :
  existsb bad_job items = true ->
  foldM get_crew_director_item items acc = Raise AttributeError.
Proof.
  revert acc. induction items as [|item items IH]; intros acc; simpl;
    [discriminate|].
  destruct (bad_job item) eqn:Hitem; simpl.
  - intros _. now rewrite (get_crew_director_item_bad _ _ Hitem).
  - intros H. rewrite (get_crew_director_item_good _ _ Hitem). simpl.
    now apply IH.
Qed.

(** X1. [get_crew_director] returns exactly when no record of the field has
    a truthy ["job"] without a [lower] method (a number, a list, [True]);
    with such a record it raises [AttributeError], whatever the other
    records are. *)
Theorem get_crew_director_raises_iff (x : scalar) :
  (existsb bad_job (records x) = false ->
     get_crew_director x =
       Ok (map director_entry (List.filter is_director (records x)))) /\
  (existsb bad_job (records x) = true ->
     get_crew_director x = Raise AttributeError).
Proof.
  unfold get_crew_director, records.
  destruct (pd_isna x); [split; [reflexivity|discriminate]|].
  destruct (decode x) as [data|]; [|split; [reflexivity|discriminate]].
  destruct data; try (split; [reflexivity|discriminate]).
  split; intros H.
  - now rewrite foldM_get_crew_director_item_good.
  - now apply foldM_get_crew_director_item_bad.
Qed.

Lemma lower_ascii_idem (a : ascii) : lower_ascii (lower_ascii a) = lower_ascii a.
Proof. destruct a as [[] [] [] [] [] [] [] []]; reflexivity. Qed.

Lemma eqb_lower_ascii_space (a : ascii) :
  Ascii.eqb (lower_ascii a) space = Ascii.eqb a space.
Proof. destruct a as [[] [] [] [] [] [] [] []]; reflexivity. Qed.

Lemma str_lower_idem (s : string) : str_lower (str_lower s) = str_lower s.
Proof.
  induction s as [|a s IH]; [reflexivity|]. simpl.
  now rewrite lower_ascii_idem, IH.
Qed.

Lemma remove_spaces_str_lower (s : string) :
  remove_spaces (str_lower s) = str_lower (remove_spaces s).
Proof.
  induction s as [|a s IH]; [reflexivity|]. simpl.
  rewrite eqb_lower_ascii_space.
  destruct (Ascii.eqb a space); simpl; now rewrite IH.
Qed.

Lemma remove_spaces_idem (s : string) :
  remove_spaces (remove_spaces s) = remove_spaces s.
Proof.
  induction s as [|a s IH]; [reflexivity|]. simpl.
  destruct (Ascii.eqb a space) eqn:Ha; [exact IH|].
  simpl. now rewrite Ha, IH.
Qed.

Lemma clean_token_idem (s : string) : clean_token (clean_token s) = clean_token s.
Proof.
  unfold clean_token.
  now rewrite remove_spaces_str_lower, remove_spaces_idem, str_lower_idem.
Qed.

Lemma strings_of_strs (l : list string) :
  strings_of (map (fun s => VStr s) l) = l.
Proof.
  induction l as [|s l IH]; [reflexivity|].
  unfold strings_of in *. simpl. f_equal. exact IH.
Qed.

(** X2. Normalising is idempotent: the tokens [clean_token_list] returns,
    given to it again, come back unchanged. *)
Theorem clean_token_list_idempotent (lst : list pyval) :
  clean_token_list (map (fun s => VStr s) (clean_token_list lst)) =
    clean_token_list lst.
Proof.
  rewrite !clean_token_list_strings, strings_of_strs.
  induction (strings_of lst) as [|s l IH]; [reflexivity|].
  simpl. now rewrite clean_token_idem, IH.
Qed.

Lemma strings_of_app (a b : list pyval) :
  strings_of (a ++ b) = strings_of a ++ strings_of b.
Proof.
  induction a as [|t a IH]; [reflexivity|].
  unfold strings_of in *.
  destruct t as [[| | | |s]|bs|re im| |l|l|l|d]; simpl;
    first [exact IH | f_equal; exact IH].
Qed.

Lemma strings_of_cons (t : pyval) (lst : list pyval) :
  strings_of (t :: lst) =
    match t with
    | VStr s => s :: strings_of lst
    | _ => strings_of lst
    end.
Proof. destruct t as [[| | | |s]|bs|re im| |l|l|l|d]; reflexivity. Qed.

Lemma length_strings_of (lst : list pyval) :
  (length (strings_of lst) <= length lst)%nat.
Proof.
  induction lst as [|t lst IH]; [reflexivity|].
  rewrite strings_of_cons.
  destruct t as [[| | | |s]|bs|re im| |l|l|l|d]; simpl; lia.
Qed.

(** X3. [clean_token_list] works element by element: the tokens of two lists
    put end to end are the tokens of the first followed by the tokens of the
    second, and there are never more tokens than elements. *)
Theorem clean_token_list_app (a b : list pyval) :
  clean_token_list (a ++ b) = clean_token_list a ++ clean_token_list b /\
  (length (clean_token_list a) <= length a)%nat.
Proof.
  rewrite !clean_token_list_strings, strings_of_app, map_app.
  split; [reflexivity|]. rewrite length_map. apply length_strings_of.
Qed.

Lemma str_lower_empty (s : string) : str_lower s = EmptyString -> s = EmptyString.
Proof. now destruct s. Qed.

Lemma remove_spaces_empty (s : string) :
  remove_spaces s = EmptyString <-> only_spaces s.
Proof.
  unfold only_spaces, chars. induction s as [|a s IH]; simpl.
  - split; [constructor|reflexivity].
  - destruct (Ascii.eqb a space) eqn:Ha.
    + apply Ascii.eqb_eq in Ha. rewrite IH. split.
      * intros H. now constructor.
      * intros H. now apply Forall_cons in H as [_ H].
    + apply Ascii.eqb_neq in Ha. split; [discriminate|].
      intros H. apply Forall_cons in H as [H _]. contradiction.
Qed.

(** X4. A name yields the empty token exactly when it consists of space
    characters only (the empty name among them). *)
Theorem clean_token_empty_iff (s : string) :
  clean_token s = EmptyString <-> only_spaces s.
Proof.
  unfold clean_token. rewrite <- remove_spaces_empty. split.
  - apply str_lower_empty.
  - now intros ->.
Qed.

(** X5. With a cap [top_n] that is not negative, [get_cast_n] turns the
    names [parse_field] returns into their first [top_n], all of them when
    there are no more than [top_n], and passes on the exception when
    [parse_field] raises. *)
Theorem get_cast_n_first (top_n : Z) (x : scalar) :
  (0 <= top_n)%Z ->
  (forall names, parse_field x = Ok names ->
     get_cast_n top_n x = Ok (firstn (Z.to_nat top_n) names) /\
     length (firstn (Z.to_nat top_n) names)
       = Nat.min (Z.to_nat top_n) (length names) /\
     ((length names <= Z.to_nat top_n)%nat -> get_cast_n top_n x = Ok names)) /\
  (forall e, parse_field x = Raise e -> get_cast_n top_n x = Raise e).
Proof.
  intros Hn. split.
  - intros names Hnames.
    assert (Hrun : get_cast_n top_n x = Ok (firstn (Z.to_nat top_n) names)).
    { unfold get_cast_n. rewrite Hnames. simpl. unfold slice_to.
      apply Z.leb_le in Hn. now rewrite Hn. }
    split; [exact Hrun|]. split; [apply length_firstn|].
    intros Hlen. rewrite Hrun. f_equal. now apply firstn_all2.
  - intros e He. unfold get_cast_n. now rewrite He.
Qed.

(** X6. With a negative cap, [get_cast_n] drops names from the end instead of
    keeping names from the start: [-k] leaves all the names [parse_field]
    returns but the last [k], none when there are no more than [k]. *)
Theorem get_cast_n_negative (k : nat) (x : scalar) (names : list string) :
  (0 < k)%nat ->
  parse_field x = Ok names ->
  get_cast_n (- Z.of_nat k) x = Ok (firstn (length names - k) names).
Proof.
  intros Hk Hnames. unfold get_cast_n. rewrite Hnames. simpl. unfold slice_to.
  replace (0 <=? - Z.of_nat k)%Z with false by (symmetry; apply Z.leb_gt; lia).
  do 2 f_equal. lia.
Qed.

Lemma collapse_without_doubled_quotes (s : string) :
  no_doubled_quotes s = true -> collapse_doubled_quotes s = s.
Proof.
  induction s as [|a s IH]; [reflexivity|].
  destruct s as [|b s]; [reflexivity|].
  intros H. change (no_doubled_quotes (String a (String b s)))
    with (negb (Ascii.eqb a dquote && Ascii.eqb b dquote)
          && no_doubled_quotes (String b s)) in H.
  apply andb_true_iff in H as [Hab Hs]. apply negb_true_iff in Hab.
  change (collapse_doubled_quotes (String a (String b s)))
    with (if Ascii.eqb a dquote && Ascii.eqb b dquote
          then String dquote (collapse_doubled_quotes s)
          else String a (collapse_doubled_quotes (String b s))).
  rewrite Hab. f_equal. now apply IH.
Qed.

(** X7. The retry helps only a cell with doubled quotes: a string without
    two quotes side by side that [literal_eval] rejects is rejected again,
    and both decoders return the empty list. *)
Theorem undecodable_without_doubled_quotes (s : string) (e : exn) :
  no_doubled_quotes s = true ->
  literal_eval s = Raise e ->
  decode (SStr s) = None /\
  parse_field (SStr s) = Ok [] /\
  get_crew_director (SStr s) = Ok [].
Proof.
  intros Hq He.
  assert (Hd : decode (SStr s) = None).
  { rewrite decode_str, He, (collapse_without_doubled_quotes _ Hq), He.
    reflexivity. }
  unfold parse_field, get_crew_director. simpl. now rewrite Hd.
Qed.

(** ** Further properties of the tag aggregator *)





(** X9. The tags of a row depend on five columns only: two rows that agree
    on the synopsis and on the four parsed columns have the same tags,
    whatever their other columns hold. *)
Theorem make_tags_reads_five_columns (row1 row2 : gmap string pyval) :
  (forall k, In k tag_keys -> row1 !! k = row2 !! k) ->
  make_tags row1 = make_tags row2.
Proof.
  intros H. unfold make_tags, row_get.
  rewrite (H "overview"), (H "genres_parsed"), (H "keywords_parsed"),
    (H "cast_parsed"), (H "director_parsed") by (simpl; tauto).
  reflexivity.
Qed.

(** X10. A row whose synopsis and parsed columns are all absent or falsy
    (None, the empty string, the empty list, zero) gets the empty tag
    string. *)
Theorem make_tags_all_falsy (row : gmap string pyval) :
  (forall k, In k tag_keys -> truthy (row_get row k) = false) ->
  make_tags row = Ok EmptyString.
Proof.
  intros H. unfold make_tags, py_or.
  rewrite (H "overview"), (H "genres_parsed"), (H "keywords_parsed"),
    (H "cast_parsed"), (H "director_parsed") by (simpl; tauto).
  reflexivity.
Qed.

Lemma append_cons (a : ascii) (s t : string) :
  String a s +:+ t = String a (s +:+ t).
Proof. reflexivity. Qed.

Lemma append_empty_r (s : string) : s +:+ EmptyString = s.
Proof.
  induction s as [|a s IH]; [reflexivity|]. now rewrite append_cons, IH.
Qed.

Lemma append_assoc (s t u : string) : (s +:+ t) +:+ u = s +:+ (t +:+ u).
Proof.
  induction s as [|a s IH]; [reflexivity|]. now rewrite !append_cons, IH.
Qed.

Lemma split_words_space (s t cur : string) :
  Sample.split_words (s +:+ String space t) cur =
    Sample.split_words s cur ++ Sample.split_words t EmptyString.
Proof.
  revert cur. induction s as [|a s IH]; intros cur.
  - reflexivity.
  - rewrite append_cons. simpl.
    destruct (Ascii.eqb a space); [simpl; f_equal|]; apply IH.
Qed.

Lemma split_words_no_space (t cur : string) :
  no_space t -> Sample.split_words t cur = [cur +:+ t].
Proof.
  unfold no_space, chars. revert cur. induction t as [|a t IH]; intros cur H; simpl.
  - now rewrite append_empty_r.
  - apply Forall_cons in H as [Ha Ht]. simpl in Ha.
    apply Ascii.eqb_neq in Ha. rewrite Ha, (IH _ Ht).
    now rewrite append_assoc.
Qed.

Lemma split_words_join_space (l : list string) :
  l <> [] ->
  Sample.split_words (join_space l) EmptyString =
    flat_map (fun s => Sample.split_words s EmptyString) l.
Proof.
  induction l as [|x l IH]; [congruence|]. intros _.
  destruct l as [|y l].
  - simpl. now rewrite app_nil_r.
  - change (join_space (x :: y :: l))
      with (x +:+ String space (join_space (y :: l))).
    rewrite split_words_space, IH by discriminate. reflexivity.
Qed.

Lemma no_space_clean_token_list (lst : list pyval) :
  Forall no_space (clean_token_list lst).
Proof.
  rewrite clean_token_list_strings. apply List.Forall_forall.
  intros t Hin. apply in_map_iff in Hin as [s [<- _]].
  apply no_space_str_lower, no_space_remove_spaces.
Qed.

Lemma no_space_column_tokens (row : gmap string pyval) (k : string) :
  Forall no_space (column_tokens row k).
Proof.
  unfold column_tokens.
  destruct (row !! k) as [[c|b|re im| |l|l|l|d]|]; try constructor.
  apply no_space_clean_token_list.
Qed.

Lemma flat_map_split_no_space (l : list string) :
  Forall no_space l -> flat_map (fun s => Sample.split_words s EmptyString) l = l.
Proof.
  induction 1 as [|t l Ht _ IH]; [reflexivity|]. simpl.
  now rewrite (split_words_no_space _ _ Ht), IH.
Qed.

(** X11. Split at its spaces, the tag string of a row gives the words of the
    synopsis followed by the non-empty tokens of the parsed columns, one word
    per token: a name of several words is one word of the tags. *)
Theorem make_tags_one_word_per_token (row : gmap string pyval) :
  list_columns row ->
  overview_part row ++ List.filter nonempty (tag_tokens row) <> [] ->
  exists tags,
    make_tags row = Ok tags /\
    Sample.split_words tags EmptyString =
      flat_map (fun s => Sample.split_words s EmptyString) (overview_part row)
      ++ List.filter nonempty (tag_tokens row).
Proof.
  intros Hcols Hne. eexists. split; [now apply make_tags_list_columns|].
  rewrite split_words_join_space by exact Hne.
  rewrite flat_map_app. f_equal.
  apply flat_map_split_no_space.
  apply List.Forall_forall. intros t Hin. apply filter_In in Hin as [Hin _].
  revert t Hin. apply List.Forall_forall. unfold tag_tokens.
  repeat (apply Forall_app; split); apply no_space_column_tokens.
Qed.

(** ** Further properties of the similarity matrix *)

Section SimilarityBounds.

Import Similarity.
Local Open Scope R_scope.

Lemma dot_disjoint (u v : list R) :
  Forall2 (fun x y => x = 0 \/ y = 0) u v -> dot u v = 0.
Proof.
  induction 1 as [|x y u v Hxy _ IH]; simpl; [reflexivity|].
  rewrite IH. destruct Hxy as [-> | ->]; ring.
Qed.

Lemma normalize_row_disjoint (u v : list R) :
  Forall2 (fun x y => x = 0 \/ y = 0) u v ->
  Forall2 (fun x y => x = 0 \/ y = 0) (normalize_row u) (normalize_row v).
Proof.
  intros H.
  assert (Hmap : forall n m,
            Forall2 (fun x y => x = 0 \/ y = 0)
              (map (fun x => x / n) u) (map (fun x => x / m) v)).
  { intros n m. induction H as [|x y u v Hxy _ IH]; simpl; [constructor|].
    constructor; [|exact IH].
    destruct Hxy as [-> | ->]; [left|right]; unfold Rdiv; ring. }
  assert (Hid : forall l : list R, map (fun x => x / 1) l = l).
  { induction l as [|x l IH]; simpl; [reflexivity|]. rewrite IH. f_equal. field. }
  specialize (Hmap (if Req_dec_T (row_norm u) 0 then 1 else row_norm u)
                   (if Req_dec_T (row_norm v) 0 then 1 else row_norm v)).
  unfold normalize_row.
  destruct (Req_dec_T (row_norm u) 0), (Req_dec_T (row_norm v) 0);
    rewrite ?Hid in Hmap; exact Hmap.
Qed.

(** X14. Two rows that never count the same term (at every column one of
    the two counts is 0) have similarity 0. *)
Theorem cosine_similarity_disjoint_rows
    (vectors : list (list nat)) (i j : nat) (u v : list nat) :
  vectors !! i = Some u -> vectors !! j = Some v ->
  Forall2 (fun a b => a = 0%nat \/ b = 0%nat) u v ->
  entry (cosine_similarity vectors) i j = Some 0.
Proof.
  intros Hi Hj Huv. rewrite entry_cosine_similarity, Hi, Hj. f_equal.
  apply dot_disjoint, normalize_row_disjoint. clear Hi Hj.
  induction Huv as [|a b u' v' Hab _ IH]; simpl; [constructor|].
  constructor; [|exact IH].
  destruct Hab as [-> | ->]; auto.
Qed.

End SimilarityBounds.

(** ** Further properties of the script *)

Lemma io_bind_lift {A B} (k : A -> io B) (r : result A) (w : world) :
  io_bind A B k (lift r) w =
    match r with
    | Ok a => k a w
    | Raise e => (Raise e, w)
    end.
Proof. unfold io_bind, lift. now destruct r. Qed.

Lemma io_bind_read_csv_path {B} (k : DataFrame -> io B) (p : string) (w : world) :
  io_bind DataFrame B k (read_csv_path p) w =
    match read_node (fs w !! p) with
    | Ok df => k df w
    | Raise e => (Raise e, w)
    end.
Proof.
  unfold io_bind, read_csv_path, read_node.
  destruct (fs w !! p) as [[|c]|]; reflexivity.
Qed.

(** [main] is the check of the inputs, then the computation of
    [load_and_build], which leaves the world as it is, then [save]. *)
Lemma main_unfold (w : world) :
  main w =
    if negb (path_exists movies_csv w && path_exists credits_csv w)
    then print missing_message w
    else match load_and_build w with
         | Ok out => save out w
         | Raise e => (Raise e, w)
         end.
Proof.
  unfold main. destruct (negb _); [reflexivity|].
  unfold load_and_build, build, mbind.
  rewrite io_bind_read_csv_path.
  destruct (read_node (fs w !! movies_csv)) as [movies|e]; cbn [result_bind];
    [|reflexivity].
  rewrite io_bind_read_csv_path.
  destruct (read_node (fs w !! credits_csv)) as [credits|e]; cbn [result_bind];
    [|reflexivity].
  repeat (rewrite io_bind_lift;
          match goal with
          | |- match ?r with Ok _ => _ | Raise _ => _ end = _ =>
              destruct r; cbn [result_bind]; [|reflexivity]
          end).
  reflexivity.
Qed.

Lemma load_and_build_inputs (w1 w2 : world) :
  fs w1 !! movies_csv = fs w2 !! movies_csv ->
  fs w1 !! credits_csv = fs w2 !! credits_csv ->
  load_and_build w1 = load_and_build w2.
Proof. unfold load_and_build. now intros -> ->. Qed.

(** What [save] does, by the state of the three paths it writes. *)
Lemma save_unfold (out : DataFrame * list (list R)) (w : world) :
  save out w =
    match fs w !! "model" with
    | Some (File _) => (Raise FileExistsError, w)
    | _ =>
        let w1 := {| fs := match fs w !! "model" with
                           | None => <["model":=Directory]> (fs w)
                           | _ => fs w
                           end;
                     stdout := stdout w |} in
        match fs w !! movie_list_pkl with
        | Some Directory => (Raise IsADirectoryError, w1)
        | _ =>
            let w2 := {| fs := <[movie_list_pkl:=File (PickledFrame (fst out))]> (fs w1);
                         stdout := stdout w |} in
            match fs w !! similarity_pkl with
            | Some Directory => (Raise IsADirectoryError, w2)
            | _ =>
                (Ok tt,
                 {| fs := <[similarity_pkl:=File (PickledMatrix (snd out))]> (fs w2);
                    stdout := stdout w ++ [built_message] |})
            end
        end
    end.
Proof.
  unfold save, mbind, io_bind, makedirs.
  assert (H1 : forall m : gmap string node,
            <["model":=Directory]> m !! movie_list_pkl = m !! movie_list_pkl)
    by (intros m; now apply lookup_insert_ne).
  assert (H2 : forall (m : gmap string node) n,
            <[movie_list_pkl:=n]> m !! similarity_pkl = m !! similarity_pkl)
    by (intros m n; now apply lookup_insert_ne).
  assert (H3 : forall m : gmap string node,
            <["model":=Directory]> m !! similarity_pkl = m !! similarity_pkl)
    by (intros m; now apply lookup_insert_ne).
  destruct w as [files out_lines]. simpl.
  destruct (files !! "model") as [[|c]|] eqn:Hmodel; [|reflexivity|];
    unfold pickle_dump; simpl; rewrite ?H1;
    (destruct (files !! movie_list_pkl) as [[|c1]|] eqn:Hlist; simpl;
     [reflexivity| |]);
    rewrite ?H2, ?H3;
    (destruct (files !! similarity_pkl) as [[|c2]|] eqn:Hsim; reflexivity).
Qed.

(** X15. Whatever the inputs and however the run ends, [main] leaves every
    path other than [model], [model/movie_list.pkl] and
    [model/similarity.pkl] as it found it: the two input files among them. *)
Theorem main_touches_only_outputs (w : world) (p : string) :
  ~ In p output_paths ->
  fs (snd (main w)) !! p = fs w !! p.
Proof.
  intros Hp.
  assert (Hm : p <> "model") by (intros ->; apply Hp; simpl; tauto).
  assert (Hl : p <> movie_list_pkl) by (intros ->; apply Hp; simpl; tauto).
  assert (Hs : p <> similarity_pkl) by (intros ->; apply Hp; simpl; tauto).
  rewrite main_unfold. destruct (negb _); [reflexivity|].
  destruct (load_and_build w) as [out|e]; [|reflexivity].
  rewrite save_unfold.
  destruct (fs w !! "model") as [[|c]|];
    destruct (fs w !! movie_list_pkl) as [[|c1]|];
    destruct (fs w !! similarity_pkl) as [[|c2]|]; simpl;
    rewrite ?lookup_insert_ne by congruence; reflexivity.
Qed.

(** X16. A run that returns has printed exactly one line: the line about the
    built files when both inputs exist, the line about the missing files
    otherwise.  A run that raises has printed nothing. *)
Theorem main_prints_one_line (w : world) :
  (fst (main w) = Ok tt ->
     stdout (snd (main w)) =
       stdout w ++ [if path_exists movies_csv w && path_exists credits_csv w
                    then built_message else missing_message]) /\
  (forall e, fst (main w) = Raise e -> stdout (snd (main w)) = stdout w).
Proof.
  rewrite main_unfold.
  destruct (path_exists movies_csv w && path_exists credits_csv w); simpl.
  - destruct (load_and_build w) as [out|e]; [|split; [discriminate|reflexivity]].
    rewrite save_unfold.
    destruct (fs w !! "model") as [[|c]|];
      destruct (fs w !! movie_list_pkl) as [[|c1]|];
      destruct (fs w !! similarity_pkl) as [[|c2]|]; simpl;
      split; try discriminate; reflexivity.
  - split; [reflexivity|discriminate].
Qed.

(** X17. A run that raises has not written [model/similarity.pkl]: the
    matrix is never on disk without the table written before it, and a
    failure leaves the matrix of an earlier run in place. *)
Theorem main_failure_keeps_similarity (w : world) (e : exn) :
  fst (main w) = Raise e ->
  fs (snd (main w)) !! similarity_pkl = fs w !! similarity_pkl.
Proof.
  rewrite main_unfold. destruct (negb _); [discriminate|].
  destruct (load_and_build w) as [out|e']; [|reflexivity].
  rewrite save_unfold.
  destruct (fs w !! "model") as [[|c]|];
    destruct (fs w !! movie_list_pkl) as [[|c1]|];
    destruct (fs w !! similarity_pkl) as [[|c2]|] eqn:Hsim; simpl;
    try discriminate; intros _;
    rewrite ?lookup_insert_ne by discriminate; auto.
Qed.

(** X18. When [model] exists and is a regular file, a run that finds both
    inputs never returns: it raises, and it leaves the world as it was. *)
Theorem main_model_is_a_file (w : world) (c : content) :
  path_exists movies_csv w = true ->
  path_exists credits_csv w = true ->
  fs w !! "model" = Some (File c) ->
  (exists e, fst (main w) = Raise e) /\ snd (main w) = w.
Proof.
  intros Hm Hc Hmodel. rewrite main_unfold, Hm, Hc. simpl.
  destruct (load_and_build w) as [out|e]; [|eauto].
  rewrite save_unfold, Hmodel. eauto.
Qed.

Lemma getcol_missing (df : DataFrame) (c : string) :
  c ∉ columns df -> getcol df c = Raise KeyError.
Proof. intros H. unfold getcol. now rewrite decide_False. Qed.

Lemma getcol_present (df : DataFrame) (c : string) :
  c ∈ columns df -> getcol df c = Ok (map (fun r => row_get r c) (rows df)).
Proof. intros H. unfold getcol. now rewrite decide_True. Qed.

Lemma columns_setcol_other (df : DataFrame) (c k : string) (values : list pyval) :
  c <> k -> c ∉ columns df -> c ∉ columns (setcol df k values).
Proof.
  intros Hck Hc. unfold setcol. simpl.
  destruct (decide (k ∈ columns df)); [exact Hc|].
  intros H. apply elem_of_app in H as [H|H]; [now apply Hc|].
  apply list_elem_of_singleton in H. contradiction.
Qed.

(** X19. When the table read from the movies file has no [id] column or no
    [genres] column, a run that finds both inputs raises [KeyError] and
    leaves the world as it was. *)
Theorem main_missing_column (w : world) (movies credits : DataFrame) :
  path_exists movies_csv w = true ->
  path_exists credits_csv w = true ->
  read_node (fs w !! movies_csv) = Ok movies ->
  read_node (fs w !! credits_csv) = Ok credits ->
  "id" ∉ columns movies \/ "genres" ∉ columns movies ->
  main w = (Raise KeyError, w).
Proof.
  intros Hm Hc Hmovies Hcredits Hcols.
  rewrite main_unfold, Hm, Hc. cbn [negb andb].
  unfold load_and_build. rewrite Hmovies, Hcredits. cbn [mbind result_bind].
  unfold build.
  destruct (decide ("id" ∈ columns movies)) as [Hid|Hid].
  - destruct Hcols as [Hcols|Hcols]; [contradiction|].
    rewrite (getcol_present _ _ Hid). cbn [mbind result_bind].
    rewrite getcol_missing
      by (apply columns_setcol_other; [discriminate|exact Hcols]).
    reflexivity.
  - now rewrite getcol_missing.
Qed.

(** X20. When [model/similarity.pkl] is a directory and nothing else stands
    in the way, the run raises [IsADirectoryError] after it has written the
    table: [model/movie_list.pkl] is on disk without its matrix. *)
Theorem main_partial_artifact (w : world) :
  path_exists movies_csv w = true ->
  path_exists credits_csv w = true ->
  is_ok (load_and_build w) = true ->
  (forall c, fs w !! "model" <> Some (File c)) ->
  fs w !! movie_list_pkl <> Some Directory ->
  fs w !! similarity_pkl = Some Directory ->
  fst (main w) = Raise IsADirectoryError /\
  exists table,
    fs (snd (main w)) !! movie_list_pkl = Some (File (PickledFrame table)).
Proof.
  intros Hm Hc Hok Hmodel Hlist Hsim.
  rewrite main_unfold, Hm, Hc. simpl.
  destruct (load_and_build w) as [out|e]; [|discriminate].
  rewrite save_unfold, Hsim.
  destruct (fs w !! "model") as [[|c]|]; [|now destruct (Hmodel c)|];
    destruct (fs w !! movie_list_pkl) as [[|c1]|]; try contradiction; simpl;
    (split; [reflexivity|]); eexists; apply lookup_insert_eq.
Qed.

(** X21. Running the script again on the world a successful run has left
    succeeds, prints the line about the built files once more and leaves the
    file system as the first run left it. *)
Theorem main_twice (w : world) :
  path_exists movies_csv w = true ->
  path_exists credits_csv w = true ->
  fst (main w) = Ok tt ->
  main (snd (main w)) =
    (Ok tt, {| fs := fs (snd (main w));
               stdout := stdout (snd (main w)) ++ [built_message] |}).
Proof.
  intros Hm Hc. rewrite (main_unfold w), Hm, Hc. cbn [negb andb].
  destruct (load_and_build w) as [out|e] eqn:Hout; [|discriminate].
  rewrite save_unfold.
  destruct (fs w !! "model") as [[|c]|] eqn:Hmodel; [|discriminate|];
    destruct (fs w !! movie_list_pkl) as [[|c1]|] eqn:Hlist; try discriminate;
    destruct (fs w !! similarity_pkl) as [[|c2]|] eqn:Hsim; try discriminate;
    cbn [fst snd fs stdout]; intros _;
    match goal with
    | |- main ?w' = _ =>
        assert (Hm' : path_exists movies_csv w' = true)
          by (unfold path_exists in *; cbn [fs];
              now rewrite !lookup_insert_ne by discriminate);
        assert (Hc' : path_exists credits_csv w' = true)
          by (unfold path_exists in *; cbn [fs];
              now rewrite !lookup_insert_ne by discriminate);
        assert (Hout' : load_and_build w' = Ok out)
          by (rewrite <- Hout; apply load_and_build_inputs; cbn [fs];
              now rewrite !lookup_insert_ne by discriminate)
    end;
    rewrite main_unfold, Hm', Hc', Hout'; cbn [negb andb];
    rewrite save_unfold; cbn [fst snd fs stdout];
    rewrite ?lookup_insert_eq;
    rewrite ?(lookup_insert_ne _ similarity_pkl "model") by discriminate;
    rewrite ?(lookup_insert_ne _ movie_list_pkl "model") by discriminate;
    rewrite ?(lookup_insert_ne _ similarity_pkl movie_list_pkl) by discriminate;
    rewrite ?lookup_insert_eq, ?Hmodel;
    do 2 f_equal;
    rewrite (insert_id _ movie_list_pkl) by
      (rewrite lookup_insert_ne by discriminate; apply lookup_insert_eq);
    now rewrite insert_insert_eq.
Qed.

Lemma get_cast_length (x : scalar) (names : list string) :
  get_cast x = Ok names -> (length names <= 3)%nat.
Proof.
  intros H. apply get_cast_n_ok in H as (all & _ & ->).
  rewrite slice_to_3. apply firstn_le_length.
Qed.

Lemma series_apply_get_cast_length (series : list pyval) (cast : list (list string)) :
  series_apply get_cast series = Ok cast ->
  Forall (fun names => (length names <= 3)%nat) cast.
Proof.
  intros H. apply mapM_ok in H.
  induction H as [|v names series cast Hv _ IH]; constructor; [|exact IH].
  destruct v as [c|b|re im| |l|l|l|d]; try discriminate.
  now apply get_cast_length in Hv.
Qed.

Lemma rows_setcol_new (df : DataFrame) (k : string) (values : list pyval)
    (P : pyval -> Prop) :
  Forall P values ->
  Forall (fun r => exists v, r !! k = Some v /\ P v) (rows (setcol df k values)).
Proof.
  intros H. simpl. revert values H.
  induction (rows df) as [|r rs IH]; intros [|v values] H; simpl;
    try constructor.
  - apply Forall_cons in H as [Hv _]. exists v. split; [apply lookup_insert_eq|exact Hv].
  - apply Forall_cons in H as [_ H]. now apply IH.
Qed.

Lemma rows_setcol_old (df : DataFrame) (k k' : string) (values : list pyval)
    (P : pyval -> Prop) :
  k <> k' ->
  Forall (fun r => exists v, r !! k' = Some v /\ P v) (rows df) ->
  Forall (fun r => exists v, r !! k' = Some v /\ P v) (rows (setcol df k values)).
Proof.
  intros Hk H. simpl. revert values.
  induction H as [|r rs Hr _ IH]; intros [|v values]; simpl; try constructor.
  - destruct Hr as (v' & Hv' & HP). exists v'.
    split; [now rewrite lookup_insert_ne|exact HP].
  - apply IH.
Qed.

Lemma columns_setcol (df : DataFrame) (k : string) (values : list pyval) :
  k ∈ columns (setcol df k values).
Proof.
  unfold setcol. simpl. destruct (decide (k ∈ columns df)); [assumption|].
  apply elem_of_app. right. now apply list_elem_of_singleton.
Qed.

Lemma columns_setcol_keep (df : DataFrame) (c k : string) (values : list pyval) :
  c ∈ columns df -> c ∈ columns (setcol df k values).
Proof.
  intros H. unfold setcol. simpl. destruct (decide (k ∈ columns df)); [exact H|].
  apply elem_of_app. now left.
Qed.

Lemma build_cast (movies credits table : DataFrame) (sim : list (list R)) :
  build movies credits = Ok (table, sim) ->
  Forall (fun r => exists v, r !! "cast_parsed" = Some v /\
                     exists names, v = str_list names /\ (length names <= 3)%nat)
    (rows table) /\
  "cast_parsed" ∈ columns table /\ "director_parsed" ∈ columns table /\
  "tags" ∈ columns table.
Proof.
  unfold build. intros H.
  apply result_bind_ok in H as (ids & _ & H). cbv zeta in H.
  apply result_bind_ok in H as (genres & _ & H).
  apply result_bind_ok in H as (keywords & _ & H).
  apply result_bind_ok in H as (merged & _ & H).
  apply result_bind_ok in H as (cast & Hcast & H).
  apply result_bind_ok in H as (director & _ & H).
  apply result_bind_ok in H as (tags & _ & H).
  apply result_bind_ok in H as (vectors & _ & H).
  injection H as <- _.
  apply result_bind_ok in Hcast as (col & _ & Hcast).
  apply series_apply_get_cast_length in Hcast.
  split; [|split; [|split]].
  - do 2 (apply rows_setcol_old; [discriminate|]).
    apply rows_setcol_new.
    induction Hcast as [|names cast Hn _ IH]; simpl; constructor; eauto.
  - do 2 apply columns_setcol_keep. apply columns_setcol.
  - apply columns_setcol_keep, columns_setcol.
  - apply columns_setcol.
Qed.

(** X22. The table a successful run writes has the columns [cast_parsed],
    [director_parsed] and [tags], and the [cast_parsed] cell of each of its
    rows is a list of at most three names. *)
Theorem main_writes_capped_cast (w : world) :
  path_exists movies_csv w = true ->
  path_exists credits_csv w = true ->
  fst (main w) = Ok tt ->
  exists table,
    fs (snd (main w)) !! movie_list_pkl = Some (File (PickledFrame table)) /\
    "cast_parsed" ∈ columns table /\ "director_parsed" ∈ columns table /\
    "tags" ∈ columns table /\
    Forall (fun r => exists names,
                r !! "cast_parsed" = Some (str_list names) /\
                (length names <= 3)%nat) (rows table).
Proof.
  intros Hm Hc. rewrite main_unfold, Hm, Hc. cbn [negb andb].
  destruct (load_and_build w) as [[table sim]|e] eqn:Hout; [|discriminate].
  unfold load_and_build in Hout.
  apply result_bind_ok in Hout as (movies & _ & Hout).
  apply result_bind_ok in Hout as (credits & _ & Hout).
  apply build_cast in Hout as (Hcast & H1 & H2 & H3).
  rewrite save_unfold.
  destruct (fs w !! "model") as [[|c]|]; [|discriminate|];
    destruct (fs w !! movie_list_pkl) as [[|c1]|]; try discriminate;
    destruct (fs w !! similarity_pkl) as [[|c2]|]; try discriminate;
    cbn [fst snd fs]; intros _; exists table;
    (split; [rewrite lookup_insert_ne by discriminate; apply lookup_insert_eq|]);
    (split; [exact H1|split; [exact H2|split; [exact H3|]]]);
    (eapply Forall_impl; [exact Hcast|]);
    intros r (v & Hv & names & -> & Hlen); eauto.
Qed.

(** ** The similarity matrix, as computed *)








End BuildModel.


(** ** The definitions on the sample data *)

Example get_cast_sample :
  get_cast Sample.literal_eval Sample.py_repr (SStr Sample.cast_source)
  = Ok ["Tom Hanks"; "Tim Allen"; "Don Rickles"].
Proof. vm_compute. reflexivity. Qed.

Example get_cast_not_a_string :
  get_cast Sample.literal_eval Sample.py_repr (SInt 7) = Ok [].
Proof. vm_compute. reflexivity. Qed.

Example get_crew_director_sample :
  get_crew_director Sample.literal_eval (SStr Sample.crew_source)
  = Ok [VStr "John Lasseter"; VNone].
Proof. vm_compute. reflexivity. Qed.

Example clean_token_list_sample :
  clean_token_list [VStr "Tom Hanks"; VNone; VScalar (SInt 3); VStr "Science Fiction"]
  = ["tomhanks"; "sciencefiction"].
Proof. vm_compute. reflexivity. Qed.

Example main_sample_tags :
  match fs (snd (main Sample.literal_eval Sample.py_repr Sample.read_csv
                   Sample.merge_credits Sample.fit_transform Sample.input_files))
        !! movie_list_pkl with
  | Some (File (PickledFrame df)) => map (fun r => r !! "tags") (rows df)
  | _ => []
  end
  = [ Some (VStr "Toys come to life animation jealousy toy tomhanks timallen donrickles johnlasseter");
      Some (VStr "nan") ].
Proof. vm_compute. reflexivity. Qed.

Example parse_field_long_int :
  parse_field Fixture.literal_eval_long Sample.py_repr (SStr Fixture.long_int_source)
  = Raise ValueError /\
  get_cast Fixture.literal_eval_long Sample.py_repr (SStr Fixture.long_int_source)
  = Raise ValueError.
Proof. split; vm_compute; reflexivity. Qed.

(** ** The theorems at the sample data *)

Lemma parse_field_contract_witness :
  parse_field Sample.literal_eval Sample.py_repr (SStr Sample.genres_doubled)
  = Ok ["Action"] /\
  parse_field Sample.literal_eval Sample.py_repr NaN = Ok [].
Proof.
  split.
  - destruct (parse_field_contract Sample.literal_eval Sample.py_repr
                (SStr Sample.genres_doubled)) as (_ & _ & H & _).
    rewrite (H Sample.genres_doubled SyntaxError Sample.genres_value);
      vm_compute; reflexivity.
  - apply (proj1 (parse_field_contract Sample.literal_eval Sample.py_repr NaN)).
    reflexivity.
Defined.

Lemma get_cast_prefix_witness :
  (length ["Tom Hanks"; "Tim Allen"; "Don Rickles"] <= 3)%nat /\
  get_cast Sample.literal_eval Sample.py_repr (SStr Sample.cast_source)
  = Ok (firstn 3 (omap (record_name Sample.py_repr)
                    (records Sample.literal_eval (SStr Sample.cast_source)))).
Proof.
  destruct (get_cast_prefix Sample.literal_eval Sample.py_repr
              (SStr Sample.cast_source)) as (Hnames & Hrun).
  split.
  - apply (Hnames ["Tom Hanks"; "Tim Allen"; "Don Rickles"]).
    vm_compute. reflexivity.
  - apply Hrun. vm_compute. reflexivity.
Defined.

Lemma get_crew_director_only_directors_witness :
  [VStr "John Lasseter"; VNone]
  = map director_entry
      (List.filter is_director (records Sample.literal_eval (SStr Sample.crew_source))).
Proof.
  apply (proj1 (get_crew_director_only_directors Sample.literal_eval
                  (SStr Sample.crew_source) [VStr "John Lasseter"; VNone]
                  ltac:(vm_compute; reflexivity))).
Defined.

Lemma nameless_director_is_none_witness :
  In VNone [VStr "John Lasseter"; VNone] /\
  exists tags,
    make_tags Sample.py_repr
      (<["director_parsed" := VList [VStr "John Lasseter"; VNone]]>
         Sample.row_without_overview) = Ok tags.
Proof.
  destruct (nameless_director_is_none Sample.literal_eval Sample.py_repr
              (SStr Sample.crew_source) [(VStr "job", VStr "DIRECTOR")]
              "DIRECTOR" [VStr "John Lasseter"; VNone])
    as (Hin & _ & Htags).
  - vm_compute. tauto.
  - reflexivity.
  - reflexivity.
  - reflexivity.
  - vm_compute. reflexivity.
  - split; [exact Hin|].
    destruct (Htags Sample.row_without_overview) as (tags & Ht & _).
    + right. eexists. vm_compute. reflexivity.
    + right. eexists. vm_compute. reflexivity.
    + right. eexists. vm_compute. reflexivity.
    + exists tags. exact Ht.
Defined.

Lemma main_missing_input_witness :
  main Sample.literal_eval Sample.py_repr Sample.read_csv Sample.merge_credits
    Sample.fit_transform Sample.no_files
  = (Ok tt, {| fs := ∅; stdout := [missing_message] |}).
Proof.
  apply (proj1 (main_missing_input Sample.literal_eval Sample.py_repr
                  Sample.read_csv Sample.merge_credits Sample.fit_transform
                  Sample.no_files (or_introl eq_refl))).
Defined.

Lemma main_outputs_aligned_witness :
  exists out_movies tags,
    fs (snd (main Sample.literal_eval Sample.py_repr Sample.read_csv
               Sample.merge_credits Sample.fit_transform Sample.input_files))
      !! movie_list_pkl = Some (File (PickledFrame out_movies)) /\
    Forall2 (fun r t => r !! "tags" = Some (VStr t) /\
                        make_tags Sample.py_repr r = Ok t)
      (rows out_movies) tags.
Proof.
  destruct (main_outputs_aligned Sample.literal_eval Sample.py_repr
              Sample.read_csv Sample.merge_credits Sample.fit_transform
              (fun (_ : unit) (d : string) =>
                 map (fun word =>
                        length (List.filter (String.eqb word)
                                  (Sample.split_words d EmptyString)))
                     Sample.vocabulary)
              Sample.input_files)
    as (out_movies & tags & voc & H1 & _ & H3 & _).
  - intros docs vectors [= <-]. exists tt. reflexivity.
  - vm_compute. reflexivity.
  - vm_compute. reflexivity.
  - vm_compute. reflexivity.
  - exists out_movies, tags. auto.
Defined.

(** ** The further properties at the sample data *)

Lemma get_crew_director_raises_iff_witness :
  get_crew_director Fixture.literal_eval (SStr Fixture.numbered_job_source)
  = Raise AttributeError /\
  get_crew_director Fixture.literal_eval (SStr Sample.crew_source)
  = Ok [VStr "John Lasseter"; VNone].
Proof.
  split.
  - apply (proj2 (get_crew_director_raises_iff Fixture.literal_eval
                    (SStr Fixture.numbered_job_source))).
    vm_compute. reflexivity.
  - apply (proj1 (get_crew_director_raises_iff Fixture.literal_eval
                    (SStr Sample.crew_source))).
    vm_compute. reflexivity.
Defined.

Lemma get_cast_n_first_witness :
  get_cast_n Sample.literal_eval Sample.py_repr 2 (SStr Sample.cast_source)
  = Ok ["Tom Hanks"; "Tim Allen"].
Proof.
  destruct (get_cast_n_first Sample.literal_eval Sample.py_repr 2
              (SStr Sample.cast_source)) as (Hnames & _); [lia|].
  destruct (Hnames ["Tom Hanks"; "Tim Allen"; "Don Rickles"; "Jim Varney"])
    as (Hrun & _); [vm_compute; reflexivity|].
  exact Hrun.
Defined.

Lemma get_cast_n_negative_witness :
  get_cast_n Sample.literal_eval Sample.py_repr (-1) (SStr Sample.cast_source)
  = Ok ["Tom Hanks"; "Tim Allen"; "Don Rickles"].
Proof.
  apply (get_cast_n_negative Sample.literal_eval Sample.py_repr 1
           (SStr Sample.cast_source)
           ["Tom Hanks"; "Tim Allen"; "Don Rickles"; "Jim Varney"]).
  - lia.
  - vm_compute. reflexivity.
Defined.

Lemma undecodable_without_doubled_quotes_witness :
  parse_field Sample.literal_eval Sample.py_repr (SStr "[{'name': ") = Ok [] /\
  get_crew_director Sample.literal_eval (SStr "[{'name': ") = Ok [].
Proof.
  apply (undecodable_without_doubled_quotes Sample.literal_eval Sample.py_repr
           "[{'name': " SyntaxError); reflexivity.
Defined.


Lemma make_tags_reads_five_columns_witness :
  make_tags Sample.py_repr (<["title" := VStr "Toy Story"]> Sample.row_without_overview)
  = make_tags Sample.py_repr Sample.row_without_overview.
Proof.
  apply make_tags_reads_five_columns.
  intros k [<-|[<-|[<-|[<-|[<-|[]]]]]]; vm_compute; reflexivity.
Defined.

Lemma make_tags_all_falsy_witness :
  make_tags Sample.py_repr (<["overview" := VStr EmptyString]> ∅) = Ok EmptyString.
Proof.
  apply make_tags_all_falsy.
  intros k [<-|[<-|[<-|[<-|[<-|[]]]]]]; vm_compute; reflexivity.
Defined.

Lemma make_tags_one_word_per_token_witness :
  exists tags,
    make_tags Sample.py_repr Sample.row_without_overview = Ok tags /\
    Sample.split_words tags EmptyString = ["nan"; "action"; "tomhanks"].
Proof.
  destruct (make_tags_one_word_per_token Sample.py_repr Sample.row_without_overview)
    as (tags & Hrun & Hsplit).
  - unfold list_columns, list_column.
    repeat split; right; eexists; vm_compute; reflexivity.
  - vm_compute. discriminate.
  - exists tags. split; [exact Hrun|]. rewrite Hsplit. vm_compute. reflexivity.
Defined.

Lemma cosine_similarity_disjoint_rows_witness :
  Similarity.entry (Similarity.cosine_similarity [[1; 0; 2]; [0; 3; 0]]%nat) 0 1
  = Some 0%R.
Proof.
  apply (cosine_similarity_disjoint_rows [[1; 0; 2]; [0; 3; 0]]%nat 0 1
           [1; 0; 2]%nat [0; 3; 0]%nat); try reflexivity.
  constructor; [right; reflexivity|].
  constructor; [left; reflexivity|].
  constructor; [right; reflexivity|].
  constructor.
Defined.

Lemma main_touches_only_outputs_witness :
  fs (snd (main Sample.literal_eval Sample.py_repr Sample.read_csv
             Sample.merge_credits Sample.fit_transform Sample.input_files))
    !! "Movies 500.csv"
  = Some (File (Bytes Sample.movies_text)).
Proof.
  rewrite main_touches_only_outputs.
  - reflexivity.
  - vm_compute. intros [H|[H|[H|[]]]]; discriminate H.
Defined.

Lemma main_prints_one_line_witness :
  stdout (snd (main Sample.literal_eval Sample.py_repr Sample.read_csv
                 Sample.merge_credits Sample.fit_transform Sample.input_files))
  = [built_message].
Proof.
  rewrite (proj1 (main_prints_one_line Sample.literal_eval Sample.py_repr
                    Sample.read_csv Sample.merge_credits Sample.fit_transform
                    Sample.input_files)).
  - reflexivity.
  - vm_compute. reflexivity.
Defined.

Lemma main_failure_keeps_similarity_witness :
  fs (snd (main Sample.literal_eval Sample.py_repr Sample.read_csv
             Sample.merge_credits Sample.fit_transform Fixture.model_is_a_file))
    !! similarity_pkl
  = None.
Proof.
  rewrite (main_failure_keeps_similarity Sample.literal_eval Sample.py_repr
             Sample.read_csv Sample.merge_credits Sample.fit_transform
             Fixture.model_is_a_file FileExistsError).
  - reflexivity.
  - vm_compute. reflexivity.
Defined.

Lemma main_model_is_a_file_witness :
  snd (main Sample.literal_eval Sample.py_repr Sample.read_csv
         Sample.merge_credits Sample.fit_transform Fixture.model_is_a_file)
  = Fixture.model_is_a_file.
Proof.
  apply (main_model_is_a_file Sample.literal_eval Sample.py_repr Sample.read_csv
           Sample.merge_credits Sample.fit_transform Fixture.model_is_a_file
           (Bytes "notes")); vm_compute; reflexivity.
Defined.

Lemma main_missing_column_witness :
  main Sample.literal_eval Sample.py_repr Fixture.read_csv_without_id
    Sample.merge_credits Sample.fit_transform Sample.input_files
  = (Raise KeyError, Sample.input_files).
Proof.
  apply (main_missing_column Sample.literal_eval Sample.py_repr
           Fixture.read_csv_without_id Sample.merge_credits Sample.fit_transform
           Sample.input_files
           {| columns := ["title"; "genres"; "keywords"]; rows := [] |}
           {| columns := ["title"; "genres"; "keywords"]; rows := [] |});
    try (vm_compute; reflexivity).
  left. intros H. repeat (apply elem_of_cons in H as [H|H]; [discriminate H|]).
  now apply elem_of_nil in H.
Defined.

Lemma main_partial_artifact_witness :
  fst (main Sample.literal_eval Sample.py_repr Sample.read_csv
         Sample.merge_credits Sample.fit_transform
         Fixture.similarity_is_a_directory)
  = Raise IsADirectoryError.
Proof.
  apply (main_partial_artifact Sample.literal_eval Sample.py_repr Sample.read_csv
           Sample.merge_credits Sample.fit_transform
           Fixture.similarity_is_a_directory); try (vm_compute; reflexivity).
  - intros c. vm_compute. discriminate.
  - vm_compute. discriminate.
Defined.

Lemma main_twice_witness :
  fst (main Sample.literal_eval Sample.py_repr Sample.read_csv
         Sample.merge_credits Sample.fit_transform
         (snd (main Sample.literal_eval Sample.py_repr Sample.read_csv
                 Sample.merge_credits Sample.fit_transform Sample.input_files)))
  = Ok tt.
Proof.
  rewrite main_twice; try (vm_compute; reflexivity).
Defined.

Lemma main_writes_capped_cast_witness :
  exists table,
    fs (snd (main Sample.literal_eval Sample.py_repr Sample.read_csv
               Sample.merge_credits Sample.fit_transform Sample.input_files))
      !! movie_list_pkl = Some (File (PickledFrame table)) /\
    "tags" ∈ columns table.
Proof.
  destruct (main_writes_capped_cast Sample.literal_eval Sample.py_repr
              Sample.read_csv Sample.merge_credits Sample.fit_transform
              Sample.input_files) as (table & H1 & _ & _ & H2 & _);
    try (vm_compute; reflexivity).
  exists table. split; assumption.
Defined.

Example binary64_diagonal_value :
  option_map FloatOps.Prim2SF
    (Binary64.entry [[1; 1; 1; 1; 1]; [0; 0; 0; 0; 0]]%nat 0 0)
  = Some (S754_finite false 9007199254740991 (-53)) /\
  FloatOps.Prim2SF Binary64.one = S754_finite false 4503599627370496 (-52).
Proof. split; vm_compute; reflexivity. Qed.


